(** * Expense tracker: a shallow embedding of [Expensetracker.py]

    The program is a menu loop over an SQLite table

      expenses(id INTEGER PRIMARY KEY AUTOINCREMENT,
               date TEXT, category TEXT, description TEXT, amount REAL)

    Modelling choices, fixed once for the whole development.

    - Strings are [string]; a character is a code point below 256.
      Python's [str] has more: among the characters left out are the
      decimal digits of other scripts, which [\d] and [int] also take.
    - A Python [float] and an SQLite REAL are IEEE 754 binary64 numbers
      ([spec_float] at precision 53), added with rounding to nearest.
      SQLite keeps a NaN as NULL and a negative zero as zero, so the
      [amount] column holds NULL or a number.
    - The table is the list of its rows in rowid order (the order of a
      full scan) together with the [sqlite_sequence] counter that
      AUTOINCREMENT keeps.  Row ids are SQLite INTEGERs, modelled in [Z];
      a Python [int] handed to a statement must fit 64 bits.
    - [SUM] is the aggregate of SQLite 3.40: a running [double] sum over
      the values that are not NULL.
    - Storage is assumed available: [sqlite3.connect] and each statement
      succeed, apart from the failures written out.
    - The Python library functions the program calls ([str.strip],
      [int], [re.match], [datetime.strptime], [datetime.strftime]) are
      modelled from CPython's behaviour, restricted to what the program's
      single format ["%Y-%m-%d"] exercises; [float] on text and the
      plotting library are parameters. *)

From Stdlib Require Import ZArith QArith List String Ascii Bool Lia Sorted.
From Stdlib Require Import SpecFloat.
From Stdlib Require Import OrderedTypeEx.
Import ListNotations.

Close Scope Q_scope.
Close Scope Z_scope.

(* ------------------------------------------------------------------ *)
(** ** Python string primitives *)

Module PyStr.

Local Open Scope string_scope.

Definition code (c : ascii) : N := N_of_ascii c.

(** [str.isspace] on code points below 256: TAB..CR, FS..US, SPACE,
    NEL (0x85) and NBSP (0xA0). *)
Definition is_space (c : ascii) : bool :=
  let n := code c in
  (((9 <=? n) && (n <=? 13)) || ((28 <=? n) && (n <=? 32))
   || (n =? 133) || (n =? 160))%N.

(** [\d], a decimal digit: among code points below 256 only 0..9. *)
Definition is_digit (c : ascii) : bool :=
  ((48 <=? code c) && (code c <=? 57))%N.

Definition in_range (lo hi c : ascii) : bool :=
  ((code lo <=? code c) && (code c <=? code hi))%N.

Definition digit_val (c : ascii) : Z := Z.of_N (code c) - 48.

Fixpoint lstrip (s : string) : string :=
  match s with
  | String c s' => if is_space c then lstrip s' else s
  | EmptyString => EmptyString
  end.

Fixpoint rstrip (s : string) : string :=
  match s with
  | String c s' =>
      match rstrip s' with
      | EmptyString => if is_space c then EmptyString else String c EmptyString
      | t => String c t
      end
  | EmptyString => EmptyString
  end.

(** [s.strip()] *)
Definition strip (s : string) : string := rstrip (lstrip s).

Fixpoint all_digits (s : string) : bool :=
  match s with
  | String c s' => is_digit c && all_digits s'
  | EmptyString => true
  end.

Fixpoint decimal (acc : Z) (s : string) : Z :=
  match s with
  | String c s' => decimal (10 * acc + digit_val c) s'
  | EmptyString => acc
  end.

(** White space as [int] sees it: the blanks of C's [isspace], and the
    other blanks of [str.isspace] that are not ASCII (here NEL and
    NBSP), which [int] first turns into spaces. *)
Definition int_space (c : ascii) : bool :=
  let n := code c in
  (((9 <=? n) && (n <=? 13)) || (n =? 32) || (n =? 133) || (n =? 160))%N.

Fixpoint lstrip_by (p : ascii -> bool) (s : string) : string :=
  match s with
  | String c s' => if p c then lstrip_by p s' else s
  | EmptyString => EmptyString
  end.

Fixpoint rstrip_by (p : ascii -> bool) (s : string) : string :=
  match s with
  | String c s' =>
      match rstrip_by p s' with
      | EmptyString => if p c then EmptyString else String c EmptyString
      | t => String c t
      end
  | EmptyString => EmptyString
  end.

(** The digits of a decimal literal: a digit first, and single
    underscores only between digits.  [after_digit] tells whether the
    character before was a digit; [None] is a malformed literal. *)
Fixpoint literal (after_digit : bool) (acc : Z) (s : string) : option Z :=
  match s with
  | String c s' =>
      if is_digit c then literal true (10 * acc + digit_val c) s'
      else if Ascii.eqb c "_" && after_digit then literal false acc s'
      else None
  | EmptyString => if after_digit then Some acc else None
  end.

(** [int(s)], base 10: blanks around an optional sign and a literal;
    [None] is [ValueError]. *)
Definition py_int (s : string) : option Z :=
  match rstrip_by int_space (lstrip_by int_space s) with
  | String c t =>
      if Ascii.eqb c "-" then option_map Z.opp (literal false 0 t)
      else if Ascii.eqb c "+" then literal false 0 t
      else literal false 0 (String c t)
  | EmptyString => None
  end.

(** [s[i] != c], evaluated only where the index exists. *)
Definition differs_at (s : string) (i : nat) (c : ascii) : bool :=
  match String.get i s with
  | Some a => negb (Ascii.eqb a c)
  | None => true
  end.

(** [s[:n]] *)
Definition take (n : nat) (s : string) : string := String.substring 0 n s.

End PyStr.

(* ------------------------------------------------------------------ *)
(** ** Backtracking regular expressions, as far as [_strptime] uses them *)

Module Regex.

Import PyStr.
Local Open Scope string_scope.

Inductive re : Type :=
| Lit (c : ascii)
| Digit
| Range (lo hi : ascii)
| Cat (r1 r2 : re)
| Alt (r1 r2 : re)
| Group (name : string) (r : re).

Definition captures := list (string * string).

Definition consumed (s rest : string) : string :=
  take (String.length s - String.length rest)%nat s.

Definition one (p : ascii -> bool) (s : string) (caps : captures)
  : list (string * captures) :=
  match s with
  | String a s' => if p a then [(s', caps)] else []
  | EmptyString => []
  end.

(** All ways of matching [r] at the head of [s], in the order in which a
    backtracking matcher tries them (left alternative first); each is
    the unread rest with the groups bound so far. *)
Fixpoint run (r : re) (s : string) (caps : captures)
  : list (string * captures) :=
  match r with
  | Lit c => one (fun a => Ascii.eqb a c) s caps
  | Digit => one is_digit s caps
  | Range lo hi => one (in_range lo hi) s caps
  | Cat r1 r2 =>
      flat_map (fun k => run r2 (fst k) (snd k)) (run r1 s caps)
  | Alt r1 r2 => run r1 s caps ++ run r2 s caps
  | Group name r1 =>
      map (fun k => (fst k, (name, consumed s (fst k)) :: snd k))
          (run r1 s caps)
  end.

(** [re.match]: the first success, as ([found.end()], [groupdict()]). *)
Definition re_match (r : re) (s : string) : option (nat * captures) :=
  match run r s [] with
  | [] => None
  | k :: _ => Some ((String.length s - String.length (fst k))%nat, snd k)
  end.

Fixpoint group (name : string) (caps : captures) : option string :=
  match caps with
  | [] => None
  | (n, v) :: caps' => if String.eqb n name then Some v else group name caps'
  end.

End Regex.

(* ------------------------------------------------------------------ *)
(** ** [datetime.strptime] and [strftime] for the format ["%Y-%m-%d"] *)

Module PyDate.

Import PyStr Regex.
Local Open Scope string_scope.
Local Open Scope Z_scope.

Record datetime : Type := mkDate { year : Z; month : Z; day : Z }.

(** The directive table of [_strptime.TimeRE]:
      Y: (?P<Y>\d\d\d\d)
      m: (?P<m>1[0-2]|0[1-9]|[1-9])
      d: (?P<d>3[0-1]|[1-2]\d|0[1-9]|[1-9]| [1-9]) *)
Definition re_Y : re :=
  Group "Y" (Cat Digit (Cat Digit (Cat Digit Digit))).

Definition re_m : re :=
  Group "m" (Alt (Cat (Lit "1") (Range "0" "2"))
            (Alt (Cat (Lit "0") (Range "1" "9"))
                 (Range "1" "9"))).

Definition re_d : re :=
  Group "d" (Alt (Cat (Lit "3") (Range "0" "1"))
            (Alt (Cat (Range "1" "2") Digit)
            (Alt (Cat (Lit "0") (Range "1" "9"))
            (Alt (Range "1" "9")
                 (Cat (Lit " ") (Range "1" "9")))))).

(** The compiled pattern of ["%Y-%m-%d"]. *)
Definition re_ymd : re :=
  Cat re_Y (Cat (Lit "-") (Cat re_m (Cat (Lit "-") re_d))).

Definition is_leap (y : Z) : bool :=
  (y mod 4 =? 0) && (negb (y mod 100 =? 0) || (y mod 400 =? 0)).

Definition days_in_month (y m : Z) : Z :=
  if m =? 2 then (if is_leap y then 29 else 28)
  else if (m =? 4) || (m =? 6) || (m =? 9) || (m =? 11) then 30
  else 31.

(** The constructor of [datetime.date]: MINYEAR = 1, MAXYEAR = 9999. *)
Definition valid_date (y m d : Z) : bool :=
  (1 <=? y) && (y <=? 9999) && (1 <=? m) && (m <=? 12)
  && (1 <=? d) && (d <=? days_in_month y m).

Definition make_date (y m d : Z) : option datetime :=
  if valid_date y m d then Some (mkDate y m d) else None.

(** [datetime.strptime(s, "%Y-%m-%d")]; [None] is [ValueError]: the text
    does not match the pattern, unconverted data remains after the
    match, or the fields are not a date. *)
Definition strptime_ymd (s : string) : option datetime :=
  match re_match re_ymd s with
  | None => None
  | Some (stop, caps) =>
      if negb (Nat.eqb (String.length s) stop) then None
      else
        match group "Y" caps, group "m" caps, group "d" caps with
        | Some ys, Some ms, Some ds =>
            match py_int ys, py_int ms, py_int ds with
            | Some y, Some m, Some d => make_date y m d
            | _, _, _ => None
            end
        | _, _, _ => None
        end
  end.

Definition digit_char (n : Z) : ascii := ascii_of_N (Z.to_N (48 + n)).

Definition pad2 (n : Z) : string :=
  String (digit_char (n / 10)) (String (digit_char (n mod 10)) "").

Definition pad4 (n : Z) : string :=
  String (digit_char (n / 1000))
    (String (digit_char (n / 100 mod 10)) (pad2 (n mod 100))).

Fixpoint drop_zeros (s : string) : string :=
  match s with
  | String c (String _ _ as s') =>
      if Ascii.eqb c "0" then drop_zeros s' else s
  | _ => s
  end.

(** [%Y] in [strftime].  CPython hands the directive to the C library
    before version 3.13: glibc prints the year without padding, other
    platforms and later versions print four digits.  [zero_pad] selects
    which. *)
Definition fmt_year (zero_pad : bool) (y : Z) : string :=
  if zero_pad then pad4 y else drop_zeros (pad4 y).

(** [d.strftime("%Y-%m-%d")] *)
Definition strftime_ymd (zero_pad : bool) (d : datetime) : string :=
  fmt_year zero_pad (year d) ++ "-" ++ pad2 (month d) ++ "-" ++ pad2 (day d).

End PyDate.

(* ------------------------------------------------------------------ *)
(** ** Python numbers and exceptions *)

Module Py.

(** A [float]: an IEEE 754 binary64 number. *)
Definition float : Type := spec_float.

Definition prec : Z := 53.
Definition emax : Z := 1024.

(** [x + y], rounded to nearest, ties to even. *)
Definition fadd (x y : float) : float := SFadd prec emax x y.

(** [x > y] *)
Definition fgt (x y : float) : bool := SFltb y x.

Definition is_nan (x : float) : bool :=
  match x with
  | S754_nan => true
  | _ => false
  end.

(** [0.0] *)
Definition zero : float := S754_zero false.

(** The [float] of a whole number, rounded where it has to be. *)
Definition float_of_Z (z : Z) : float := binary_normalize prec emax z 0 false.

(** Truth value of a [float]: [x != 0.0]. *)
Definition truthy (x : float) : bool :=
  match x with
  | S754_zero _ => false
  | _ => true
  end.

(** A number as the program holds one: an [int] or a [float]. *)
Inductive number : Type :=
| Int (z : Z)
| Float (x : float).

Inductive exn : Type := EOFError | ValueError | TypeError | OverflowError.

End Py.

(* ------------------------------------------------------------------ *)
(** ** The [expenses] table and the SQL statements the program issues *)

Module Sql.

Import PyStr Py.
Local Open Scope string_scope.

(** A value of the column [amount REAL]: NULL or a number. *)
Definition real : Type := option float.

(** One row; the fields are the columns, in the order of [SELECT *]. *)
Record expense : Type := mkExpense {
  id : Z;
  date : string;
  category : string;
  description : string;
  amount : real
}.

(** The table: rows in rowid order, and the largest rowid ever handed
    out (the table's entry in [sqlite_sequence]). *)
Record table : Type := mkTable {
  rows : list expense;
  seq : Z
}.

Definition empty_table : table := mkTable [] 0.

(** A Python [float] as the column keeps it: a NaN becomes NULL, and a
    zero is kept as the integer 0, which reads back as [0.0]. *)
Definition bind_real (x : float) : real :=
  match x with
  | S754_nan => None
  | S754_zero _ => Some zero
  | _ => Some x
  end.

(** A Python [int] can be bound to a statement when it fits a signed
    64-bit integer; otherwise [execute] raises [OverflowError]. *)
Definition fits_int64 (i : Z) : bool :=
  (- 2 ^ 63 <=? i)%Z && (i <? 2 ^ 63)%Z.

(** What a call that writes leaves: the table, and the exception if the
    call raised. *)
Inductive result : Type :=
| Done (t : table)
| Failed (e : exn) (t : table).

Definition table_after (r : result) : table :=
  match r with
  | Done t => t
  | Failed _ t => t
  end.

(** [INSERT INTO expenses (date, category, description, amount)
     VALUES (?, ?, ?, ?)] *)
Definition insert (t : table) (d c ds : string) (a : float) : table :=
  let i := (seq t + 1)%Z in
  mkTable (rows t ++ [mkExpense i d c ds (bind_real a)]) i.

(** [SELECT * FROM expenses] *)
Definition select_all (t : table) : list expense := rows t.

(** [DELETE FROM expenses WHERE id=?], the parameter bound to [i]. *)
Definition delete_where_id (t : table) (i : Z) : table :=
  mkTable (filter (fun r => negb (Z.eqb (id r) i)) (rows t)) (seq t).

(** [UPDATE expenses SET date=?, category=?, description=?, amount=?
     WHERE id=?], the parameters bound. *)
Definition update_where_id (t : table) (d c ds : string) (a : float) (i : Z)
  : table :=
  mkTable
    (map (fun r =>
            if Z.eqb (id r) i then mkExpense (id r) d c ds (bind_real a)
            else r)
         (rows t))
    (seq t).

(** [cursor.execute] of the DELETE with the Python [int] [i]. *)
Definition execute_delete (t : table) (i : Z) : result :=
  if fits_int64 i then Done (delete_where_id t i)
  else Failed OverflowError t.

(** [cursor.execute] of the UPDATE with the Python [int] [i]. *)
Definition execute_update (t : table) (d c ds : string) (a : float) (i : Z)
  : result :=
  if fits_int64 i then Done (update_where_id t d c ds a i)
  else Failed OverflowError t.

(** The aggregate [SUM] over a REAL column: [sumStep] adds each value
    that is not NULL to a running [double] and counts it. *)
Record sum_ctx : Type := mkSum {
  rSum : float;
  cnt : Z
}.

Definition sum_init : sum_ctx := mkSum zero 0.

Definition sum_step (p : sum_ctx) (v : real) : sum_ctx :=
  match v with
  | Some x => mkSum (fadd (rSum p) x) (cnt p + 1)
  | None => p
  end.

(** A [double] as a result: a NaN is handed over as NULL. *)
Definition result_double (x : float) : real :=
  if is_nan x then None else Some x.

(** [sumFinalize]: NULL when nothing was counted. *)
Definition sum_finalize (p : sum_ctx) : real :=
  if (0 <? cnt p)%Z then result_double (rSum p) else None.

Definition sum (l : list real) : real :=
  sum_finalize (fold_left sum_step l sum_init).

(** A TEXT value as the string functions read it: up to its first NUL.
    [skip_chars n z] moves over at most [n] characters, [take_chars n z]
    copies at most [n]. *)
Definition nul : ascii := "000"%char.

Fixpoint skip_chars (n : nat) (z : string) : string :=
  match z with
  | String c z' =>
      if Ascii.eqb c nul then z
      else match n with
           | O => z
           | S n' => skip_chars n' z'
           end
  | EmptyString => EmptyString
  end.

Fixpoint take_chars (n : nat) (z : string) : string :=
  match z with
  | String c z' =>
      if Ascii.eqb c nul then EmptyString
      else match n with
           | O => EmptyString
           | S n' => String c (take_chars n' z')
           end
  | EmptyString => EmptyString
  end.

(** [substr(X, p1, p2)] on text, for [p1 >= 1]. *)
Definition substr (x : string) (p1 p2 : nat) : string :=
  take_chars p2 (skip_chars (p1 - 1) x).

(** [SELECT SUM(amount) FROM expenses] *)
Definition select_sum (t : table) : real :=
  sum (map amount (rows t)).

(** [SELECT SUM(amount) FROM expenses WHERE substr(date,1,7)=?] *)
Definition select_sum_month (t : table) (m : string) : real :=
  sum (map amount
         (filter (fun r => String.eqb (substr (date r) 1 7) m) (rows t))).

(** Adding one row to the groups seen so far.  The rows reach the
    aggregate sorted by category, rows of one category in rowid order;
    the groups are kept in the order of their keys. *)
Fixpoint group_add (c : string) (v : real) (groups : list (string * sum_ctx))
  : list (string * sum_ctx) :=
  match groups with
  | [] => [(c, sum_step sum_init v)]
  | (c', p) :: rest =>
      match String.compare c c' with
      | Eq => (c', sum_step p v) :: rest
      | Lt => (c, sum_step sum_init v) :: groups
      | Gt => (c', p) :: group_add c v rest
      end
  end.

Definition group_rows (rs : list expense) : list (string * sum_ctx) :=
  fold_left (fun g r => group_add (category r) (amount r) g) rs [].

(** [SELECT category, SUM(amount) FROM expenses GROUP BY category] *)
Definition select_sum_by_category (t : table) : list (string * real) :=
  map (fun g => (fst g, sum_finalize (snd g))) (group_rows (rows t)).

End Sql.

(* ------------------------------------------------------------------ *)
(** ** Console input and output *)

Module Console.

Import Py Sql.

(** What [view_expenses] prints: its message, or the header and a line
    for each of the rows [rs]. *)
Inductive listing : Type :=
| NoExpensesRecorded
| Listed (rs : list expense).

Inductive color : Type := red | skyblue.

(** What [plt.bar], [plt.ylim] and [plt.axhline] are called with. *)
Record chart : Type := mkChart {
  categories : list string;
  amounts : list real;
  colors : list color;
  ylim : float * float;
  axhline : float
}.

(** What [plot_category_expenses] does: it prints its message, or it
    shows a figure, or it raises, before or after it has handed a chart
    to the plotting library. *)
Inductive plot : Type :=
| NoExpensesToDisplay
| Shown (c : chart)
| Crashed (e : exn) (c : option chart).

(** The lines the program prints, by content; prompts and the menu
    banner are left out, numbers are not yet formatted. *)
Inductive message : Type :=
| InvalidFormatMsg
| InvalidDateMsg
| ExpenseAdded
| ExpenseDeleted
| ExpenseUpdated
| Listing (l : listing)
| TotalExpense (v : number)
| MonthTotal (m : string) (v : number)
| Plot (p : plot)
| Exiting
| InvalidChoice.

Record world : Type := mkWorld {
  stdin : list string;
  stdout : list message
}.

Inductive outcome (A : Type) : Type :=
| Returns (a : A) (w : world)
| Raises (e : exn) (w : world).

Arguments Returns {A} a w.
Arguments Raises {A} e w.

Definition io (A : Type) : Type := world -> outcome A.

Definition ret {A} (a : A) : io A := fun w => Returns a w.

Definition bind {A B} (m : io A) (k : A -> io B) : io B :=
  fun w =>
    match m w with
    | Returns a w' => k a w'
    | Raises e w' => Raises e w'
    end.

Definition raise {A} (e : exn) : io A := fun w => Raises e w.

(** [input()] *)
Definition input : io string :=
  fun w =>
    match stdin w with
    | line :: rest => Returns line (mkWorld rest (stdout w))
    | [] => Raises EOFError w
    end.

(** [print(...)] *)
Definition print (m : message) : io unit :=
  fun w => Returns tt (mkWorld (stdin w) (stdout w ++ [m])).

(** A conversion that raises [ValueError] where it has no result. *)
Definition convert {A} (o : option A) : io A :=
  match o with
  | Some a => ret a
  | None => raise ValueError
  end.

(** The exception a call left, raised again. *)
Definition reraise (o : option exn) : io unit :=
  match o with
  | Some e => raise e
  | None => ret tt
  end.

End Console.

Declare Scope io_scope.
Delimit Scope io_scope with io.
Notation "x <- m ;; k" := (Console.bind m (fun x => k))
  (at level 61, m at next level, right associativity) : io_scope.
Notation "m ;;; k" := (Console.bind m (fun _ => k))
  (at level 61, right associativity) : io_scope.

(* ------------------------------------------------------------------ *)
(** ** The program *)

Module Expensetracker.

Import PyStr PyDate Py Sql Console.
Local Open Scope string_scope.

(** [create_table]: [CREATE TABLE IF NOT EXISTS]; [None] is a database
    file without the table. *)
Definition create_table (db : option table) : table :=
  match db with
  | Some t => t
  | None => empty_table
  end.

Definition add_expense (t : table) (date category description : string)
  (amount : float) : table :=
  insert t date category description amount.

(** The loop of [view_expenses]: a line per row, until the format
    [.2f] meets an amount that is [None] and raises [TypeError]. *)
Fixpoint print_rows (rows : list expense) : list expense * option exn :=
  match rows with
  | [] => ([], None)
  | row :: rest =>
      match amount row with
      | None => ([], Some TypeError)
      | Some _ =>
          let (printed, e) := print_rows rest in (row :: printed, e)
      end
  end.

(** [view_expenses]: what it prints, and the exception it ends in. *)
Definition view_expenses (t : table) : listing * option exn :=
  let rows := select_all t in
  match rows with
  | [] => (NoExpensesRecorded, None)
  | _ => let (printed, e) := print_rows rows in (Listed printed, e)
  end.

(** [total if total else 0], [total] being a [float] or [None]. *)
Definition or_zero (total : real) : number :=
  match total with
  | Some v => if truthy v then Float v else Int 0
  | None => Int 0
  end.

(** [total_expense]: the [value] it prints. *)
Definition total_expense (t : table) : number :=
  let total := select_sum t in
  or_zero total.

Definition delete_expense (t : table) (id : Z) : result :=
  execute_delete t id.

Definition update_expense (t : table) (id : Z)
  (date category description : string) (amount : float) : result :=
  execute_update t date category description amount id.

(** [monthly_expense] after [month] is read: the [value] it prints. *)
Definition month_total (t : table) (month : string) : number :=
  let total := select_sum_month t month in
  or_zero total.

Definition limit : float := float_of_Z 30000.

(** [amt > 30000] *)
Definition over_limit (amt : float) : bool := fgt amt limit.

(** The list comprehension of the colours: [None > 30000] raises
    [TypeError], here [None]. *)
Fixpoint colors_of (amounts : list real) : option (list color) :=
  match amounts with
  | [] => Some []
  | None :: _ => None
  | Some amt :: rest =>
      match colors_of rest with
      | Some cs => Some ((if over_limit amt then red else skyblue) :: cs)
      | None => None
      end
  end.

Section Interaction.

(** Whether [strftime] pads [%Y] to four digits, [float] on text, and
    the plotting library: the exception its calls end in, if any, for
    the chart they are given. *)
Variable zero_pad : bool.
Variable py_float : string -> option float.
Variable pyplot : chart -> option exn.

Definition plot_category_expenses (t : table) : plot :=
  let rows := select_sum_by_category t in
  match rows with
  | [] => NoExpensesToDisplay
  | _ =>
      let categories := map fst rows in
      let amounts := map snd rows in
      match colors_of amounts with
      | None => Crashed TypeError None
      | Some colors =>
          let c := mkChart categories amounts colors
                     (float_of_Z 1000, float_of_Z 90000) limit in
          match pyplot c with
          | None => Shown c
          | Some e => Crashed e (Some c)
          end
      end
  end.

Inductive verdict : Type :=
| Accepted (s : string)
| InvalidFormat
| InvalidDate.

(** The body of the loop of [get_valid_date], for one [raw]. *)
Definition check_date (raw : string) : verdict :=
  if negb (Nat.eqb (String.length raw) 10)
     || differs_at raw 4 "-" || differs_at raw 7 "-"
  then InvalidFormat
  else
    match strptime_ymd raw with
    | Some valid_date => Accepted (strftime_ymd zero_pad valid_date)
    | None => InvalidDate
    end.

(** [while True]: one pass per line read. *)
Fixpoint get_valid_date_loop (lines : list string) (out : list message)
  : outcome string :=
  match lines with
  | [] => Raises EOFError (mkWorld [] out)
  | line :: rest =>
      let raw := strip line in
      match check_date raw with
      | Accepted s => Returns s (mkWorld rest out)
      | InvalidFormat => get_valid_date_loop rest (out ++ [InvalidFormatMsg])
      | InvalidDate => get_valid_date_loop rest (out ++ [InvalidDateMsg])
      end
  end.

Definition get_valid_date : io string :=
  fun w => get_valid_date_loop (stdin w) (stdout w).

Local Open Scope io_scope.

Definition monthly_expense (t : table) : io unit :=
  line <- input ;;
  let month := strip line in
  print (MonthTotal month (month_total t month)).

(** A call that writes, inside the menu: its exception goes up. *)
Definition written (r : result) : io table :=
  match r with
  | Done t => ret t
  | Failed e _ => raise e
  end.

(** One pass of the loop of [menu], after [choice] is read: the table
    afterwards and whether the loop goes on. *)
Definition menu_choice (t : table) (choice : string) : io (table * bool) :=
  if String.eqb choice "1" then
    date <- get_valid_date ;;
    category <- input ;;
    description <- input ;;
    a <- input ;;
    amount <- convert (py_float a) ;;
    print ExpenseAdded ;;;
    ret (add_expense t date category description amount, true)
  else if String.eqb choice "2" then
    print (Listing (fst (view_expenses t))) ;;;
    reraise (snd (view_expenses t)) ;;;
    ret (t, true)
  else if String.eqb choice "3" then
    print (TotalExpense (total_expense t)) ;;; ret (t, true)
  else if String.eqb choice "4" then
    i <- input ;;
    id <- convert (py_int i) ;;
    t' <- written (delete_expense t id) ;;
    print ExpenseDeleted ;;;
    ret (t', true)
  else if String.eqb choice "5" then
    i <- input ;;
    id <- convert (py_int i) ;;
    date <- get_valid_date ;;
    category <- input ;;
    description <- input ;;
    a <- input ;;
    amount <- convert (py_float a) ;;
    t' <- written (update_expense t id date category description amount) ;;
    print ExpenseUpdated ;;;
    ret (t', true)
  else if String.eqb choice "6" then
    monthly_expense t ;;; ret (t, true)
  else if String.eqb choice "7" then
    match plot_category_expenses t with
    | Crashed e _ => raise e
    | p => print (Plot p) ;;; ret (t, true)
    end
  else if String.eqb choice "8" then
    print Exiting ;;; ret (t, false)
  else
    print InvalidChoice ;;; ret (t, true).

(** [menu]: the loop, at most [fuel] passes. *)
Fixpoint menu_loop (fuel : nat) (t : table) : io (option table) :=
  match fuel with
  | O => ret None
  | S fuel' =>
      choice <- input ;;
      r <- menu_choice t choice ;;
      if snd r then menu_loop fuel' (fst r) else ret (Some (fst r))
  end.

Definition menu (fuel : nat) (db : option table) : io (option table) :=
  menu_loop fuel (create_table db).

End Interaction.

End Expensetracker.

(* ------------------------------------------------------------------ *)
(** ** What the specification speaks of *)

Module Spec.

Import PyStr PyDate Py Sql Console Expensetracker.
Local Open Scope string_scope.

(** The amounts that are numbers, in order. *)
Fixpoint numbers (l : list real) : list float :=
  match l with
  | [] => []
  | Some x :: l' => x :: numbers l'
  | None :: l' => numbers l'
  end.

(** The sum of [xs] in binary64, taken from the left and begun at 0.0. *)
Definition double_sum (xs : list float) : float := fold_left fadd xs zero.

Definition is_zero (x : float) : bool :=
  match x with
  | S754_zero _ => true
  | _ => false
  end.

(** The total of a column as a query hands it over: NULL when no value
    is a number or when the sum is not a number. *)
Definition sql_total (l : list real) : real :=
  match numbers l with
  | [] => None
  | xs => if is_nan (double_sum xs) then None else Some (double_sum xs)
  end.

(** The total as the program reports it: 0 for NULL and for a zero. *)
Definition reported (l : list real) : number :=
  match sql_total l with
  | Some s => if is_zero s then Int 0 else Float s
  | None => Int 0
  end.

(** The value of a finite [float], as a rational. *)
Definition exact (x : float) : Q :=
  match x with
  | S754_finite s m e =>
      ((if s then inject_Z (Zneg m) else inject_Z (Zpos m))
       * Qpower (2 # 1) e)%Q
  | _ => 0%Q
  end.

(** The arithmetic sum of finite numbers. *)
Fixpoint arithmetic_sum (xs : list float) : Q :=
  match xs with
  | [] => 0%Q
  | x :: xs' => (exact x + arithmetic_sum xs')%Q
  end.

Definition number_value (v : number) : Q :=
  match v with
  | Int z => inject_Z z
  | Float x => exact x
  end.

(** A TEXT value up to its first NUL. *)
Fixpoint text (s : string) : string :=
  match s with
  | String c s' => if Ascii.eqb c nul then EmptyString else String c (text s')
  | EmptyString => EmptyString
  end.

(** The first [n] characters of [s], or all of [s] if it has fewer. *)
Definition first_chars (n : nat) (s : string) : string :=
  string_of_list_ascii (firstn n (list_ascii_of_string s)).

(** The first seven characters of the date are [m]. *)
Definition in_month (m : string) (r : expense) : bool :=
  String.eqb (first_chars 7 (text (date r))) m.

(** The record bears category [c]. *)
Definition in_category (c : string) (r : expense) : bool :=
  String.eqb (category r) c.

(** The fields a caller of add supplies, and the fields of a row. *)
Definition entry : Type := (string * string * string * float)%type.

Definition fields (r : expense) : string * string * string * real :=
  (date r, category r, description r, amount r).

(** The fields of the row an entry becomes. *)
Definition stored (e : entry) : string * string * string * real :=
  let '(d, c, ds, a) := e in (d, c, ds, bind_real a).

Definition add_entry (t : table) (e : entry) : table :=
  let '(d, c, ds, a) := e in add_expense t d c ds a.

Definition add_all (t : table) (es : list entry) : table :=
  fold_left add_entry es t.

(** The amount of an entry is a number. *)
Definition numeric (e : entry) : Prop := is_nan (snd e) = false.

(** No amount in the table is NULL. *)
Definition no_null (t : table) : Prop :=
  Forall (fun r => amount r <> None) (rows t).

(** The sequence of records a listing shows. *)
Definition listed (l : listing) : list expense :=
  match l with
  | NoExpensesRecorded => []
  | Listed rs => rs
  end.

Definition id_lt (r1 r2 : expense) : Prop := (id r1 < id r2)%Z.

(** The invariant of the table: ids strictly increase along the rows
    (so they are pairwise different, as PRIMARY KEY demands), and none
    exceeds the AUTOINCREMENT counter. *)
Definition wf (t : table) : Prop :=
  StronglySorted id_lt (rows t)
  /\ Forall (fun r => (id r <= seq t)%Z) (rows t).

(** The ids of the rows, in order. *)
Definition ids (t : table) : list Z := map id (rows t).

(** The scenario of the specification: 100 in August, 50 in September. *)
Definition two_months : table :=
  add_expense
    (add_expense empty_table "2025-08-01" "Food" "" (float_of_Z 100))
    "2025-09-01" "Food" "" (float_of_Z 50).

(** The scenario of the specification: Food 20, Food 30, Travel 10. *)
Definition three_rows : table :=
  add_all (create_table None)
    [("2025-08-01", "Food", "lunch", float_of_Z 20);
     ("2025-08-02", "Food", "dinner", float_of_Z 30);
     ("2025-08-03", "Travel", "bus", float_of_Z 10)].

(** Two expenses of one month and one category: 10^16 and 1. *)
Definition large_and_small : table :=
  add_all (create_table None)
    [("2025-08-01", "Food", "feast", float_of_Z (10 ^ 16));
     ("2025-08-02", "Food", "crumb", float_of_Z 1)].

(** One expense whose amount was entered as [nan]. *)
Definition not_a_number : table :=
  add_expense (create_table None) "2025-08-01" "Food" "lunch" S754_nan.

(** The value a list of groups holds for category [c], if any. *)
Fixpoint assoc {A : Type} (c : string) (g : list (string * A)) : option A :=
  match g with
  | [] => None
  | (c', s) :: g' => if String.eqb c c' then Some s else assoc c g'
  end.

Definition key_lt {A : Type} (g1 g2 : string * A) : Prop :=
  String.compare (fst g1) (fst g2) = Lt.

(** The running sum of category [c] after one more row. *)
Definition tally (c : string) (o : option sum_ctx) (r : expense)
  : option sum_ctx :=
  if String.eqb c (category r)
  then Some (sum_step (match o with Some p => p | None => sum_init end)
               (amount r))
  else o.

(** How the specification says a bar of height [amt] is coloured. *)
Definition coloured (amt : real) (col : color) : Prop :=
  exists x, amt = Some x
            /\ (col = red <-> SFcompare x limit = Some Gt)
            /\ (col = skyblue <-> SFcompare x limit <> Some Gt).

(** The number [x] lies strictly above the whole number [n]. *)
Definition above (x : float) (n : Z) : Prop :=
  match x with
  | S754_zero _ => (n < 0)%Z
  | S754_infinity s => s = false
  | S754_nan => False
  | S754_finite s m e =>
      (n * 2 ^ Z.max 0 (- e)
       < (if s then Zneg m else Zpos m) * 2 ^ Z.max 0 e)%Z
  end.

(** One category with the given total. *)
Definition one_category (amt : float) : table :=
  add_expense empty_table "2025-08-01" "Food" "" amt.

(** The number two, or four, digit characters write. *)
Definition num2 (a b : ascii) : Z := 10 * digit_val a + digit_val b.

Definition num4 (a b c d : ascii) : Z :=
  1000 * digit_val a + 100 * digit_val b + 10 * digit_val c + digit_val d.

(** A date written YYYY-MM-DD: ten characters, [-] at positions 4 and 7,
    a digit at each other position, and the three numbers a date of the
    calendar (years 1 to 9999). *)
Definition strict_ymd (s : string) : bool :=
  match s with
  | String y1 (String y2 (String y3 (String y4 (String h1
      (String m1 (String m2 (String h2 (String d1 (String d2
        EmptyString))))))))) =>
      is_digit y1 && is_digit y2 && is_digit y3 && is_digit y4
      && Ascii.eqb h1 "-" && is_digit m1 && is_digit m2
      && Ascii.eqb h2 "-" && is_digit d1 && is_digit d2
      && valid_date (num4 y1 y2 y3 y4) (num2 m1 m2) (num2 d1 d2)
  | _ => false
  end.

(** [s] with the character at position [n] replaced by [c]. *)
Fixpoint replace_at (n : nat) (c : ascii) (s : string) : string :=
  match s with
  | EmptyString => EmptyString
  | String a s' =>
      match n with
      | O => String c s'
      | S n' => String a (replace_at n' c s')
      end
  end.

(** [s] with a blank at position 8 (the tens of the day) turned into 0. *)
Definition zero_pad_day (s : string) : string :=
  match String.get 8 s with
  | Some c => if Ascii.eqb c " " then replace_at 8 "0" s else s
  | None => s
  end.

(** The validator accepts [raw]. *)
Definition accepts (raw : string) : bool :=
  match check_date true raw with
  | Accepted _ => true
  | _ => false
  end.

(** Two characters that the month, and the day, directive reads whole. *)
Definition month2 (a b : ascii) : bool :=
  Ascii.eqb a "1" && in_range "0" "2" b
  || Ascii.eqb a "0" && in_range "1" "9" b.

Definition day2 (a b : ascii) : bool :=
  Ascii.eqb a "3" && in_range "0" "1" b
  || in_range "1" "2" a && is_digit b
  || Ascii.eqb a "0" && in_range "1" "9" b.

(** What the day directive accepts in two characters, and its number. *)
Definition day_ok (a b : ascii) : bool :=
  day2 a b || Ascii.eqb a " " && in_range "1" "9" b.

Definition day_val (a b : ascii) : Z :=
  if Ascii.eqb a " " then digit_val b else num2 a b.

(** The string of ten given characters. *)
Definition ten (c0 c1 c2 c3 c4 c5 c6 c7 c8 c9 : ascii) : string :=
  String c0 (String c1 (String c2 (String c3 (String c4
    (String c5 (String c6 (String c7 (String c8 (String c9 ""))))))))).

(** Every character. *)
Definition all_ascii : list ascii := map ascii_of_nat (List.seq 0 256).

(** The colours of the bars drawn, if any. *)
Definition bar_colors (p : plot) : list color :=
  match p with
  | Shown ch => colors ch
  | Crashed _ (Some ch) => colors ch
  | _ => []
  end.

(** A stand-in for [float] on whole numbers, for running examples. *)
Definition whole_number (s : string) : option float :=
  option_map float_of_Z (py_int s).

(** A plotting library that draws every chart. *)
Definition draws (c : chart) : option exn := None.

(** Every stored date is a date written YYYY-MM-DD. *)
Definition valid_dates (t : table) : Prop :=
  Forall (fun r => strict_ymd (date r) = true) (rows t).

(** The message [get_valid_date] prints for a line it does not accept. *)
Definition rejection_msg (line : string) : message :=
  match check_date true (strip line) with
  | InvalidDate => InvalidDateMsg
  | _ => InvalidFormatMsg
  end.

(** The choices of the menu that call a function that writes. *)
Definition writes (choice : string) : bool :=
  String.eqb choice "1" || String.eqb choice "4" || String.eqb choice "5".

(** A session: one expense added, then the total, then exit. *)
Definition short_session : list string :=
  ["1"; "2025-08-03"; "Food"; "lunch"; "20"; "3"; "8"].

End Spec.

Import PyStr Regex PyDate Py Sql Console Expensetracker Spec.
Open Scope string_scope.

(* ------------------------------------------------------------------ *)
(** ** Tactics for running the matcher on symbolic characters *)

(** Unfold one layer of the matcher. *)
Ltac step := cbn [run one flat_map map fst snd app andb orb].

(** Evaluate character tests whose character is known. *)
Ltac eval_closed :=
  repeat match goal with
  | |- context [in_range ?l ?h ?x] =>
      tryif is_var x then fail else
        let v := eval vm_compute in (in_range l h x) in
        change (in_range l h x) with v
  | |- context [Ascii.eqb ?x ?y] =>
      tryif is_var x then fail else
        let v := eval vm_compute in (Ascii.eqb x y) in
        change (Ascii.eqb x y) with v
  | |- context [is_digit ?x] =>
      tryif is_var x then fail else
        let v := eval vm_compute in (is_digit x) in
        change (is_digit x) with v
  end.

(** Take a chain of binds that returns apart, [lem] inverting one bind. *)
Ltac inv_bind_with lem H :=
  repeat (apply lem in H;
          let a := fresh "a" in
          let w := fresh "w" in
          let Hm := fresh "Hm" in
          destruct H as (a & w & Hm & H); cbv beta in H).

(** Split on every test of a character that is a variable. *)
Ltac split_atoms :=
  repeat (step; eval_closed; step;
          match goal with
          | |- context [Ascii.eqb ?x ?y] =>
              is_var x; destruct (Ascii.eqb_spec x y); [subst x|]
          | |- context [in_range ?l ?h ?x] =>
              is_var x; destruct (in_range l h x) eqn:?
          | |- context [is_digit ?x] =>
              is_var x; destruct (is_digit x) eqn:?
          end);
  step; eval_closed; step.

(* ------------------------------------------------------------------ *)
(** ** Totals *)

Section Totals.

(** [SUM] adds the values that are not NULL, from the left, and counts
    them. *)
Lemma fold_sum_step (l : list real) (p : sum_ctx) :
  fold_left sum_step l p
  = mkSum (fold_left fadd (numbers l) (rSum p))
      (cnt p + Z.of_nat (List.length (numbers l))).
Proof.
  revert p. induction l as [|[x|] l IH]; intro p;
    cbn [fold_left numbers List.length].
  - destruct p as [s n]. cbn [rSum cnt]. f_equal. lia.
  - rewrite IH. cbn [sum_step rSum cnt]. f_equal. lia.
  - apply IH.
Qed.

Lemma sum_finalize_fold (l : list real) (s : float) :
  sum_finalize
    (mkSum (fold_left fadd (numbers l) s) (Z.of_nat (List.length (numbers l))))
  = match numbers l with
    | [] => None
    | _ => result_double (fold_left fadd (numbers l) s)
    end.
Proof.
  unfold sum_finalize. cbn [cnt rSum].
  destruct (numbers l) as [|x xs]; [reflexivity|].
  replace (0 <? Z.of_nat (List.length (x :: xs)))%Z with true; [reflexivity|].
  symmetry. apply Z.ltb_lt. cbn [List.length]. lia.
Qed.

Lemma sum_sql_total (l : list real) : Sql.sum l = sql_total l.
Proof.
  unfold Sql.sum. rewrite fold_sum_step. cbn [sum_init rSum cnt Z.add].
  rewrite sum_finalize_fold. unfold sql_total, result_double, double_sum.
  now destruct (numbers l).
Qed.

Lemma or_zero_reported (l : list real) : or_zero (Sql.sum l) = reported l.
Proof.
  rewrite sum_sql_total. unfold or_zero, reported.
  destruct (sql_total l) as [s|]; [|reflexivity]. now destruct s.
Qed.

Lemma skip_chars_0 (z : string) : skip_chars 0 z = z.
Proof. destruct z as [|c z]; cbn; [|destruct (Ascii.eqb c nul)]; reflexivity. Qed.

Lemma take_chars_text (n : nat) (z : string) :
  take_chars n z = first_chars n (text z).
Proof.
  revert n. induction z as [|c z IH]; intro n.
  - now destruct n.
  - destruct n as [|n]; cbn [take_chars text]; destruct (Ascii.eqb c nul);
      try reflexivity.
    rewrite IH. reflexivity.
Qed.

(** [substr(date,1,7)] is the first seven characters of the text. *)
Lemma substr_first_chars (x : string) :
  substr x 1 7 = first_chars 7 (text x).
Proof. unfold substr. cbn [Nat.sub]. now rewrite skip_chars_0, take_chars_text. Qed.

Lemma filter_in_month (m : string) (rs : list expense) :
  filter (fun r => String.eqb (substr (date r) 1 7) m) rs
  = filter (in_month m) rs.
Proof.
  apply filter_ext. intro r. unfold in_month. now rewrite substr_first_chars.
Qed.

Lemma total_expense_reported (t : table) :
  total_expense t = reported (map amount (rows t)).
Proof. unfold total_expense, select_sum. apply or_zero_reported. Qed.

Lemma month_total_reported (t : table) (m : string) :
  month_total t m = reported (map amount (filter (in_month m) (rows t))).
Proof.
  unfold month_total, select_sum_month. rewrite filter_in_month.
  apply or_zero_reported.
Qed.

(** C1. [total_expense] yields, whatever the table, the binary64 sum of
    the amounts that are not NULL, added from the left in the order of
    the rows and begun at 0.0; it yields the integer 0 when no amount is
    a number (so on the table without rows) and when that sum is a zero
    or not a number.  Food 20, Food 30 and Travel 10 give 60. *)
Theorem total_expense_is_double_sum :
  (forall t : table,
      total_expense t = reported (map amount (select_all t)))
  /\ (forall s : Z, total_expense (mkTable [] s) = Int 0)
  /\ total_expense three_rows = Float (float_of_Z 60).
Proof.
  split; [|split].
  - intro t. apply total_expense_reported.
  - reflexivity.
  - vm_compute. reflexivity.
Qed.

(** C2. For every table and every month string [m], the monthly total is
    the binary64 sum, taken as for the total, over exactly the rows whose
    date, read up to its first NUL, has [m] as its first seven characters
    (all of it, if it has fewer), compared as text; it is the integer 0
    when no row does.  [monthly_expense] reads [m] as the stripped input
    line and prints that value. *)
Theorem month_total_is_prefix_sum (t : table) (m : string) :
  month_total t m
  = reported (map amount (filter (in_month m) (select_all t)))
  /\ (filter (in_month m) (select_all t) = [] -> month_total t m = Int 0)
  /\ (forall line rest out,
        monthly_expense t (mkWorld (line :: rest) out)
        = Returns tt
            (mkWorld rest
               (out ++ [MonthTotal (strip line) (month_total t (strip line))]))).
Proof.
  split; [|split].
  - apply month_total_reported.
  - unfold select_all. intro H. now rewrite month_total_reported, H.
  - reflexivity.
Qed.

End Totals.

Example month_total_august :
  month_total two_months "2025-08" = Float (float_of_Z 100).
Proof. vm_compute. reflexivity. Qed.

Lemma month_total_is_prefix_sum_witness :
  filter (in_month "2025-10") (select_all two_months) = []
  /\ month_total two_months "2025-10" = Int 0.
Proof.
  split; [reflexivity|].
  apply (proj1 (proj2 (month_total_is_prefix_sum two_months "2025-10"))).
  reflexivity.
Defined.

(** The sum of 10^16 and 1 is 10^16 in binary64: the total reported is
    not the arithmetic sum of the amounts. *)
Lemma total_expense_rounds :
  total_expense large_and_small = Float (float_of_Z (10 ^ 16))
  /\ ~ (number_value (total_expense large_and_small)
        == arithmetic_sum (numbers (map amount (select_all large_and_small))))%Q.
Proof.
  split; [vm_compute; reflexivity|].
  vm_compute. discriminate.
Qed.

(** The same two amounts within one month. *)
Lemma month_total_rounds :
  filter (in_month "2025-08") (select_all large_and_small)
  = select_all large_and_small
  /\ month_total large_and_small "2025-08" = Float (float_of_Z (10 ^ 16))
  /\ ~ (number_value (month_total large_and_small "2025-08")
        == arithmetic_sum
             (numbers (map amount
                (filter (in_month "2025-08") (select_all large_and_small)))))%Q.
Proof.
  split; [vm_compute; reflexivity|].
  split; [vm_compute; reflexivity|].
  vm_compute. discriminate.
Qed.

(* ------------------------------------------------------------------ *)
(** ** The table invariant *)

Section TableInvariant.

Local Open Scope Z_scope.

Lemma sorted_snoc (l : list expense) (x : expense) :
  StronglySorted id_lt l -> Forall (fun r => id_lt r x) l ->
  StronglySorted id_lt (l ++ [x]).
Proof.
  induction 1 as [|r l Hs IH Hr]; intro Hx; simpl.
  - repeat constructor.
  - inversion Hx; subst. constructor.
    + now apply IH.
    + apply Forall_app. split; [assumption | now constructor].
Qed.

Lemma sorted_filter (p : expense -> bool) (l : list expense) :
  StronglySorted id_lt l -> StronglySorted id_lt (filter p l).
Proof.
  induction 1 as [|r l Hs IH Hr]; simpl; [constructor|].
  destruct (p r); [|assumption].
  constructor; [assumption|].
  rewrite Forall_forall in *. intros x Hx.
  apply filter_In in Hx. now apply Hr.
Qed.

Lemma sorted_map_same_id (f : expense -> expense) (l : list expense) :
  (forall r, id (f r) = id r) ->
  StronglySorted id_lt l -> StronglySorted id_lt (map f l).
Proof.
  intro Hf. induction 1 as [|r l Hs IH Hr]; simpl; constructor.
  - assumption.
  - rewrite Forall_forall in *. intros x Hx.
    apply in_map_iff in Hx. destruct Hx as [y [<- Hy]].
    unfold id_lt. rewrite !Hf. now apply Hr.
Qed.

Lemma sorted_ids (l : list expense) :
  StronglySorted id_lt l -> StronglySorted Z.lt (map id l).
Proof.
  induction 1 as [|r l Hs IH Hr]; simpl; constructor.
  - assumption.
  - rewrite Forall_forall in *. intros x Hx.
    apply in_map_iff in Hx. destruct Hx as [y [<- Hy]]. now apply Hr.
Qed.

Lemma sorted_nodup (l : list Z) : StronglySorted Z.lt l -> NoDup l.
Proof.
  induction 1 as [|x l Hs IH Hx]; constructor; [|assumption].
  intro Hin. rewrite Forall_forall in Hx. specialize (Hx _ Hin). lia.
Qed.

Lemma wf_empty : wf empty_table.
Proof. split; constructor. Qed.

Lemma wf_create_table (db : option table) :
  (forall t, db = Some t -> wf t) -> wf (create_table db).
Proof.
  destruct db as [t|]; simpl; intro H; [now apply H | apply wf_empty].
Qed.

Lemma wf_add_expense (t : table) (d c ds : string) (a : float) :
  wf t -> wf (add_expense t d c ds a).
Proof.
  intros [Hs Hb]. split; simpl.
  - apply sorted_snoc; [assumption|].
    eapply Forall_impl; [|exact Hb]. unfold id_lt; simpl; intros; lia.
  - apply Forall_app. split.
    + eapply Forall_impl; [|exact Hb]. simpl; intros; lia.
    + repeat constructor. simpl. lia.
Qed.

Lemma wf_delete_where_id (t : table) (i : Z) :
  wf t -> wf (delete_where_id t i).
Proof.
  intros [Hs Hb]. split; simpl.
  - now apply sorted_filter.
  - rewrite Forall_forall in *. intros x Hx.
    apply filter_In in Hx. now apply Hb.
Qed.

Lemma wf_update_where_id (t : table) (d c ds : string) (a : float) (i : Z) :
  wf t -> wf (update_where_id t d c ds a i).
Proof.
  intros [Hs Hb]. split; simpl.
  - apply sorted_map_same_id; [|assumption].
    intro r. now destruct (id r =? i).
  - rewrite Forall_forall in *. intros x Hx.
    apply in_map_iff in Hx. destruct Hx as [y [<- Hy]].
    destruct (id y =? i); simpl; now apply Hb.
Qed.

Lemma wf_delete_expense (t : table) (i : Z) :
  wf t -> wf (table_after (delete_expense t i)).
Proof.
  intro H. unfold delete_expense, execute_delete.
  destruct (fits_int64 i); cbn [table_after];
    [now apply wf_delete_where_id | assumption].
Qed.

Lemma wf_update_expense (t : table) (i : Z) (d c ds : string) (a : float) :
  wf t -> wf (table_after (update_expense t i d c ds a)).
Proof.
  intro H. unfold update_expense, execute_update.
  destruct (fits_int64 i); cbn [table_after];
    [now apply wf_update_where_id | assumption].
Qed.

Lemma wf_add_all (es : list entry) (t : table) : wf t -> wf (add_all t es).
Proof.
  revert t. induction es as [|[[[d c] ds] a] es IH]; intros t Ht; simpl.
  - assumption.
  - apply IH. now apply wf_add_expense.
Qed.

(** The rows after a run of adds: the old rows, then one row per entry
    with the entry's fields as they are stored, in the order of the
    adds. *)
Lemma rows_add_all (es : list entry) (t : table) :
  exists news,
    rows (add_all t es) = (rows t ++ news)%list
    /\ map fields news = map stored es.
Proof.
  revert t. induction es as [|[[[d c] ds] a] es IH]; intro t; simpl.
  - exists []. now rewrite app_nil_r.
  - destruct (IH (add_expense t d c ds a)) as [news [Hr Hf]].
    exists (mkExpense (seq t + 1) d c ds (bind_real a) :: news). split.
    + rewrite Hr. simpl. now rewrite <- app_assoc.
    + simpl. now rewrite Hf.
Qed.

Lemma bind_real_numeric (a : float) : is_nan a = false -> bind_real a <> None.
Proof. destruct a; cbn; intros; congruence. Qed.

Lemma no_null_add_all (es : list entry) (t : table) :
  no_null t -> Forall numeric es -> no_null (add_all t es).
Proof.
  revert t. induction es as [|[[[d c] ds] a] es IH]; intros t Ht Hes; simpl.
  - assumption.
  - inversion Hes; subst. apply IH; [|assumption].
    unfold no_null in *. simpl. apply Forall_app. split; [assumption|].
    repeat constructor. simpl. now apply bind_real_numeric.
Qed.

End TableInvariant.

(* ------------------------------------------------------------------ *)
(** ** Listing, deleting, updating *)

Section Crud.

Local Open Scope Z_scope.
Local Open Scope list_scope.

Lemma print_rows_no_null (l : list expense) :
  Forall (fun r => amount r <> None) l -> print_rows l = (l, None).
Proof.
  induction 1 as [|r l Hr Hl IH]; cbn [print_rows]; [reflexivity|].
  destruct (amount r); [|congruence]. now rewrite IH.
Qed.

(** The loop prints the rows before the first whose amount is NULL, and
    raises [TypeError] there. *)
Lemma print_rows_stops (l : list expense) :
  exists shown rest,
    l = shown ++ rest
    /\ fst (print_rows l) = shown
    /\ Forall (fun r => amount r <> None) shown
    /\ ((rest = [] /\ snd (print_rows l) = None)
        \/ (exists r rest', rest = r :: rest' /\ amount r = None
                            /\ snd (print_rows l) = Some TypeError)).
Proof.
  induction l as [|r l (shown & rest & E & Hf & Hn & Ht)]; cbn [print_rows].
  - exists [], []. repeat split; [constructor | now left].
  - destruct (amount r) as [x|] eqn:Ea.
    + exists (r :: shown), rest.
      destruct (print_rows l) as [printed e]. cbn [fst snd] in *.
      subst printed. split; [now rewrite E|]. split; [reflexivity|].
      split; [constructor; [congruence | assumption] | exact Ht].
    + exists [], (r :: l). repeat split; [constructor|].
      right. now exists r, l.
Qed.

Lemma view_expenses_stops (t : table) :
  exists shown rest,
    select_all t = shown ++ rest
    /\ listed (fst (view_expenses t)) = shown
    /\ Forall (fun r => amount r <> None) shown
    /\ ((rest = [] /\ snd (view_expenses t) = None)
        \/ (exists r rest', rest = r :: rest' /\ amount r = None
                            /\ snd (view_expenses t) = Some TypeError)).
Proof.
  unfold view_expenses, select_all.
  destruct (rows t) as [|r l] eqn:E.
  - exists [], []. repeat split; [constructor | now left].
  - destruct (print_rows_stops (r :: l)) as (shown & rest & H1 & H2 & H3 & H4).
    exists shown, rest. destruct (print_rows (r :: l)) as [printed e].
    cbn [fst snd listed] in *. repeat split; assumption.
Qed.

Lemma view_expenses_no_null (t : table) :
  no_null t ->
  listed (fst (view_expenses t)) = select_all t
  /\ snd (view_expenses t) = None.
Proof.
  unfold view_expenses, select_all, no_null. intro H.
  destruct (rows t) as [|r l] eqn:E; [now split|].
  rewrite (print_rows_no_null _ H). now split.
Qed.

(** C5. From a table that satisfies the invariant (the fresh table
    does) and holds no NULL amount, after any run of adds of amounts
    that are numbers the listing ends without an exception and shows the
    rows that were there followed by one row per add, in the order of
    the adds and with the fields given; the ids of the rows shown
    strictly increase and are pairwise different.  The listing of a table
    without rows is the empty sequence, reported by a message, without
    an exception.  After an add of the amount [nan], which the column
    keeps as NULL, the listing prints its header and raises
    [TypeError]: on any table the listing shows the rows before the
    first whose amount is NULL and raises there. *)
Theorem view_expenses_insertion_order (t : table) (es : list entry) :
  wf t -> no_null t -> Forall numeric es ->
  snd (view_expenses (add_all t es)) = None
  /\ (exists news,
         listed (fst (view_expenses (add_all t es)))
         = listed (fst (view_expenses t)) ++ news
         /\ map fields news = map stored es)
  /\ StronglySorted Z.lt
       (map id (listed (fst (view_expenses (add_all t es)))))
  /\ NoDup (map id (listed (fst (view_expenses (add_all t es)))))
  /\ view_expenses (create_table None) = (NoExpensesRecorded, None)
  /\ view_expenses not_a_number = (Listed [], Some TypeError)
  /\ (forall t0 : table,
        exists shown rest,
          select_all t0 = shown ++ rest
          /\ listed (fst (view_expenses t0)) = shown
          /\ Forall (fun r => amount r <> None) shown
          /\ ((rest = [] /\ snd (view_expenses t0) = None)
              \/ (exists r rest',
                    rest = r :: rest' /\ amount r = None
                    /\ snd (view_expenses t0) = Some TypeError))).
Proof.
  intros Ht Hn Hes.
  destruct (view_expenses_no_null _ (no_null_add_all es t Hn Hes)) as [-> ->].
  destruct (view_expenses_no_null _ Hn) as [-> _].
  unfold select_all.
  assert (Hs : StronglySorted Z.lt (map id (rows (add_all t es)))).
  { apply sorted_ids. now apply wf_add_all. }
  split; [reflexivity|].
  split; [apply rows_add_all|].
  split; [exact Hs|].
  split; [now apply sorted_nodup|].
  split; [reflexivity|]. split; [reflexivity|].
  apply view_expenses_stops.
Qed.

Lemma filter_all (p : expense -> bool) (l : list expense) :
  Forall (fun r => p r = true) l -> filter p l = l.
Proof.
  induction 1 as [|r l Hr Hl IH]; simpl; [reflexivity|].
  now rewrite Hr, IH.
Qed.

Lemma sorted_split (l1 l2 : list expense) (r : expense) :
  StronglySorted id_lt (l1 ++ r :: l2) ->
  Forall (fun x => id x <> id r) l1 /\ Forall (fun x => id x <> id r) l2.
Proof.
  induction l1 as [|x l1 IH]; simpl; intro H; inversion H; subst.
  - split; [constructor|].
    eapply Forall_impl; [|eassumption]. unfold id_lt. intros; lia.
  - destruct (IH H2) as [H1' H2']. split; [|assumption].
    constructor; [|assumption].
    rewrite Forall_forall in H3. specialize (H3 r).
    unfold id_lt in H3. assert (id x < id r); [|lia].
    apply H3. apply in_or_app. right. now left.
Qed.

Lemma table_eta (t : table) : mkTable (rows t) (seq t) = t.
Proof. now destruct t. Qed.

Lemma delete_absent (t : table) (i : Z) :
  ~ In i (map id (rows t)) -> delete_where_id t i = t.
Proof.
  intro H. unfold delete_where_id.
  rewrite filter_all; [apply table_eta|].
  rewrite Forall_forall. intros r Hr.
  destruct (id r =? i) eqn:E; [|reflexivity].
  exfalso. apply H. apply in_map_iff. exists r. split; [lia | assumption].
Qed.

Lemma delete_removes_id (t : table) (i : Z) :
  ~ In i (map id (rows (delete_where_id t i))).
Proof.
  simpl. intro H. apply in_map_iff in H. destruct H as [r [Hi Hr]].
  apply filter_In in Hr. destruct Hr as [_ Hr].
  destruct (id r =? i) eqn:E; [discriminate | lia].
Qed.

Lemma delete_rows_split (t : table) (l1 l2 : list expense) (r : expense) :
  StronglySorted id_lt (rows t) -> rows t = l1 ++ r :: l2 ->
  rows (delete_where_id t (id r)) = l1 ++ l2.
Proof.
  intros Hs E. simpl. rewrite E in *.
  destruct (sorted_split _ _ _ Hs) as [H1 H2].
  rewrite filter_app. simpl. rewrite Z.eqb_refl. simpl.
  rewrite !filter_all; [reflexivity | |].
  - eapply Forall_impl; [|exact H2]. simpl. intros x Hx.
    destruct (id x =? id r) eqn:E'; [lia | reflexivity].
  - eapply Forall_impl; [|exact H1]. simpl. intros x Hx.
    destruct (id x =? id r) eqn:E'; [lia | reflexivity].
Qed.

Lemma update_absent (t : table) (i : Z) (d c ds : string) (a : float) :
  ~ In i (map id (rows t)) -> update_where_id t d c ds a i = t.
Proof.
  intro H. unfold update_where_id.
  rewrite <- (table_eta t) at 3. f_equal.
  rewrite <- (map_id (rows t)) at 2. apply map_ext_in.
  intros r Hr. destruct (id r =? i) eqn:E; [|reflexivity].
  exfalso. apply H. apply in_map_iff. exists r. split; [lia | assumption].
Qed.

Lemma delete_expense_fits (t : table) (i : Z) :
  fits_int64 i = true -> delete_expense t i = Done (delete_where_id t i).
Proof. intro H. unfold delete_expense, execute_delete. now rewrite H. Qed.

Lemma update_expense_fits (t : table) (i : Z) (d c ds : string) (a : float) :
  fits_int64 i = true ->
  update_expense t i d c ds a = Done (update_where_id t d c ds a i).
Proof. intro H. unfold update_expense, execute_update. now rewrite H. Qed.

Lemma delete_expense_overflow (t : table) (i : Z) :
  fits_int64 i = false -> delete_expense t i = Failed OverflowError t.
Proof. intro H. unfold delete_expense, execute_delete. now rewrite H. Qed.

Lemma update_expense_overflow (t : table) (i : Z) (d c ds : string)
  (a : float) :
  fits_int64 i = false ->
  update_expense t i d c ds a = Failed OverflowError t.
Proof. intro H. unfold update_expense, execute_update. now rewrite H. Qed.

(** C6. On a table that satisfies the invariant, [delete_expense t i]
    with [i] within the signed 64-bit range returns without an
    exception, removes the row whose id is [i] and no other row, leaves
    no row with that id to be selected, and when no row has id [i] (as
    after a first delete of [i]) leaves the table as it was.  With [i]
    outside that range it raises [OverflowError] and leaves the table as
    it was, whether or not a row has id [i]. *)
Theorem delete_expense_exactly_one (t : table) (i : Z) :
  wf t ->
  (fits_int64 i = true ->
     exists t',
       delete_expense t i = Done t'
       /\ (forall r, In r (rows t) -> id r = i ->
             exists l1 l2, rows t = l1 ++ r :: l2 /\ rows t' = l1 ++ l2)
       /\ ~ In i (map id (select_all t'))
       /\ (~ In i (map id (rows t)) -> t' = t)
       /\ delete_expense t' i = Done t')
  /\ (fits_int64 i = false -> delete_expense t i = Failed OverflowError t).
Proof.
  intros [Hs _]. split; [|apply delete_expense_overflow].
  intro Hi. exists (delete_where_id t i).
  rewrite !delete_expense_fits by assumption.
  split; [reflexivity|]. split; [|split; [|split]].
  - intros r Hin Hid.
    destruct (in_split _ _ Hin) as [l1 [l2 E]].
    exists l1, l2. split; [assumption|].
    subst i. now apply delete_rows_split.
  - apply delete_removes_id.
  - apply delete_absent.
  - f_equal. apply delete_absent. apply delete_removes_id.
Qed.

(** C7. [update_expense t i ...] with [i] within the signed 64-bit range
    returns without an exception and keeps the number and the order of
    the rows and every id; the row whose id is [i] gets the three new
    texts and the new amount as the column keeps it (NULL for a NaN),
    every other row is left as it was; when no row has id [i] the table
    is left as it was.  With [i] outside that range it raises
    [OverflowError] and leaves the table as it was. *)
Theorem update_expense_frame (t : table) (i : Z) (d c ds : string)
  (a : float) :
  (fits_int64 i = true ->
     exists t',
       update_expense t i d c ds a = Done t'
       /\ List.length (rows t') = List.length (rows t)
       /\ map id (rows t') = map id (rows t)
       /\ (forall k r,
             nth_error (rows t) k = Some r ->
             nth_error (rows t') k
             = Some (if id r =? i
                     then mkExpense (id r) d c ds (bind_real a) else r))
       /\ (~ In i (map id (rows t)) -> t' = t))
  /\ (fits_int64 i = false ->
      update_expense t i d c ds a = Failed OverflowError t).
Proof.
  split; [|apply update_expense_overflow].
  intro Hi. exists (update_where_id t d c ds a i).
  rewrite update_expense_fits by assumption.
  split; [reflexivity|]. split; [|split; [|split]]; simpl.
  - apply length_map.
  - rewrite map_map. apply map_ext. intro r. now destruct (id r =? i).
  - intros k r H. rewrite nth_error_map, H. reflexivity.
  - apply update_absent.
Qed.

End Crud.

Lemma wf_three_rows : wf three_rows.
Proof. apply wf_add_all. apply wf_empty. Defined.

(* ------------------------------------------------------------------ *)
(** ** Totals by category *)

Section Groups.

Local Open Scope list_scope.

Lemma compare_lt_trans (a b c : string) :
  String.compare a b = Lt -> String.compare b c = Lt ->
  String.compare a c = Lt.
Proof.
  intros H1 H2. apply String_as_OT.cmp_lt.
  apply String_as_OT.lt_trans with b; now apply String_as_OT.cmp_lt.
Qed.

Lemma compare_gt_lt (a b : string) :
  String.compare a b = Gt -> String.compare b a = Lt.
Proof.
  intro H. rewrite String.compare_antisym, H. reflexivity.
Qed.

Lemma compare_lt_neq (a b : string) :
  String.compare a b = Lt -> String.eqb a b = false.
Proof.
  intro H. apply String.eqb_neq. intros ->.
  assert (E : String.compare b b = Eq) by now apply String_as_OT.cmp_eq.
  congruence.
Qed.

Lemma assoc_below (A : Type) (c : string) (g : list (string * A)) :
  Forall (fun k => String.compare c (fst k) = Lt) g -> assoc c g = None.
Proof.
  induction 1 as [|[c' s] g Hk Hg IH]; simpl in *; [reflexivity|].
  now rewrite (compare_lt_neq _ _ Hk).
Qed.

Lemma assoc_in (A : Type) (c : string) (g : list (string * A)) :
  assoc c g <> None <-> In c (map fst g).
Proof.
  induction g as [|[c' s] g IH]; simpl.
  - tauto.
  - destruct (String.eqb_spec c c') as [->|Hn].
    + split; [now left | discriminate].
    + rewrite IH. split; [now right | intros [E|H]; congruence].
Qed.

Lemma group_add_keys (c : string) (v : real) (g : list (string * sum_ctx)) k :
  In k (group_add c v g) -> fst k = c \/ In (fst k) (map fst g).
Proof.
  induction g as [|[c' s] g IH]; simpl.
  - intros [<-|[]]. now left.
  - destruct (String.compare c c') eqn:E; simpl.
    + intros [<-|H]; right; [now left | right; now apply in_map].
    + intros [<-|[<-|H]]; [now left | right; now left |].
      right; right. now apply in_map.
    + intros [<-|H]; [right; now left|].
      destruct (IH H); [now left | right; now right].
Qed.

Lemma group_add_sorted (c : string) (v : real) (g : list (string * sum_ctx)) :
  StronglySorted key_lt g -> StronglySorted key_lt (group_add c v g).
Proof.
  induction 1 as [|[c' s] g Hs IH Hk]; simpl.
  - repeat constructor.
  - destruct (String.compare c c') eqn:E.
    + constructor; [assumption|].
      eapply Forall_impl; [|exact Hk]. now unfold key_lt.
    + constructor; [now constructor|].
      constructor; [exact E|].
      eapply Forall_impl; [|exact Hk]. unfold key_lt; simpl.
      intros k Hk'. now apply compare_lt_trans with c'.
    + constructor; [assumption|].
      rewrite Forall_forall in *. intros k Hin. unfold key_lt; simpl.
      destruct (group_add_keys _ _ _ _ Hin) as [->|Hin'].
      * now apply compare_gt_lt.
      * apply in_map_iff in Hin'. destruct Hin' as [k' [<- Hk']].
        now apply Hk.
Qed.

Lemma assoc_group_add (x c : string) (v : real)
  (g : list (string * sum_ctx)) :
  StronglySorted key_lt g ->
  assoc x (group_add c v g)
  = if String.eqb x c
    then Some (sum_step (match assoc c g with
                         | Some p => p
                         | None => sum_init
                         end) v)
    else assoc x g.
Proof.
  induction 1 as [|[c' s] g Hs IH Hk]; simpl.
  - reflexivity.
  - destruct (String.compare c c') eqn:E; simpl.
    + apply String_as_OT.cmp_eq in E. subst c'.
      rewrite (String.eqb_refl c). simpl.
      now destruct (String.eqb x c).
    + rewrite (compare_lt_neq _ _ E).
      rewrite (assoc_below sum_ctx c g); [reflexivity|].
      eapply Forall_impl; [|exact Hk]. unfold key_lt; simpl.
      intros k Hk'. now apply compare_lt_trans with c'.
    + rewrite IH.
      assert (Hn : String.eqb c c' = false).
      { rewrite String.eqb_sym. apply compare_lt_neq.
        now apply compare_gt_lt. }
      rewrite Hn.
      destruct (String.eqb_spec x c') as [->|Hx]; [|reflexivity].
      rewrite String.eqb_sym, Hn. reflexivity.
Qed.

Lemma fold_group_add_sorted (rs : list expense)
  (g : list (string * sum_ctx)) :
  StronglySorted key_lt g ->
  StronglySorted key_lt
    (fold_left (fun g r => group_add (category r) (amount r) g) rs g).
Proof.
  revert g. induction rs as [|r rs IH]; intros g Hg; simpl.
  - assumption.
  - apply IH. now apply group_add_sorted.
Qed.

(** Per category, grouping is a running sum over the rows. *)
Lemma assoc_fold_group_add (c : string) (rs : list expense)
  (g : list (string * sum_ctx)) :
  StronglySorted key_lt g ->
  assoc c (fold_left (fun g r => group_add (category r) (amount r) g) rs g)
  = fold_left (tally c) rs (assoc c g).
Proof.
  revert g. induction rs as [|r rs IH]; intros g Hg; cbn [fold_left].
  - reflexivity.
  - rewrite IH by now apply group_add_sorted.
    rewrite assoc_group_add by assumption.
    f_equal. unfold tally.
    destruct (String.eqb_spec c (category r)) as [E|Hn];
      [rewrite <- E|]; reflexivity.
Qed.

Lemma tally_some (c : string) (rs : list expense) (p : sum_ctx) :
  fold_left (tally c) rs (Some p)
  = Some (fold_left sum_step (map amount (filter (in_category c) rs)) p).
Proof.
  revert p. induction rs as [|r rs IH]; intro p;
    cbn [fold_left filter map]; [reflexivity|].
  unfold tally at 2.
  change (in_category c r) with (String.eqb (category r) c).
  rewrite (String.eqb_sym (category r) c).
  destruct (String.eqb c (category r)); cbn [map fold_left]; apply IH.
Qed.

Lemma tally_none (c : string) (rs : list expense) :
  match fold_left (tally c) rs None with
  | Some p =>
      p = fold_left sum_step (map amount (filter (in_category c) rs)) sum_init
      /\ In c (map category rs)
  | None => ~ In c (map category rs)
  end.
Proof.
  induction rs as [|r rs IH]; cbn [fold_left filter map In].
  - tauto.
  - unfold tally at 2.
    change (in_category c r) with (String.eqb (category r) c).
    rewrite (String.eqb_sym (category r) c).
    destruct (String.eqb_spec c (category r)) as [E|Hn].
    + rewrite tally_some. cbn [map fold_left]. split; [reflexivity | now left].
    + destruct (fold_left (tally c) rs None).
      * destruct IH. split; [assumption | now right].
      * intros [E|H]; [congruence | contradiction].
Qed.

Lemma sorted_keys_nodup (A : Type) (g : list (string * A)) :
  StronglySorted key_lt g -> NoDup (map fst g).
Proof.
  induction 1 as [|k g Hs IH Hk]; simpl; constructor; [|assumption].
  intro Hin. apply in_map_iff in Hin. destruct Hin as [k' [E Hk']].
  rewrite Forall_forall in Hk. specialize (Hk _ Hk'). unfold key_lt in Hk.
  apply compare_lt_neq in Hk. apply String.eqb_neq in Hk. congruence.
Qed.

Lemma in_assoc (A : Type) (c : string) (s : A) (g : list (string * A)) :
  NoDup (map fst g) -> In (c, s) g -> assoc c g = Some s.
Proof.
  induction g as [|[c' s'] g IH]; simpl; intros Hn Hin; [contradiction|].
  inversion Hn; subst. destruct Hin as [E|Hin].
  - inversion E; subst. now rewrite String.eqb_refl.
  - destruct (String.eqb_spec c c') as [->|Hx]; [|now apply IH].
    exfalso. apply H1. apply in_map_iff. now exists (c', s).
Qed.

Lemma keys_finalized (g : list (string * sum_ctx)) :
  map fst (map (fun k => (fst k, sum_finalize (snd k))) g) = map fst g.
Proof. rewrite map_map. now apply map_ext. Qed.

(** C8. The category totals hold one entry per distinct category among
    the rows, categories compared as text, in the order of the keys; the
    entry of a category is the binary64 sum, taken as for the total, of
    the amounts of the rows that bear it, in the order of the rows, and
    NULL when none of them is a number or that sum is not a number; a
    table without rows gives no entry; Food 20, Food 30 and Travel 10
    give Food 50 and Travel 10. *)
Theorem select_sum_by_category_totals :
  (forall t : table,
      NoDup (map fst (select_sum_by_category t))
      /\ StronglySorted key_lt (select_sum_by_category t)
      /\ (forall c, In c (map fst (select_sum_by_category t))
                    <-> In c (map category (rows t)))
      /\ (forall c s, In (c, s) (select_sum_by_category t) ->
            s = sql_total
                  (map amount (filter (in_category c) (rows t)))))
  /\ (forall s : Z, select_sum_by_category (mkTable [] s) = [])
  /\ select_sum_by_category three_rows
     = [("Food", Some (float_of_Z 50)); ("Travel", Some (float_of_Z 10))].
Proof.
  split; [|split; [reflexivity | vm_compute; reflexivity]].
  intro t. unfold select_sum_by_category, group_rows.
  set (g := fold_left _ (rows t) []).
  assert (Hs : StronglySorted key_lt g)
    by (apply fold_group_add_sorted; constructor).
  assert (Hg : forall c, assoc c g = fold_left (tally c) (rows t) None)
    by (intro c; apply (assoc_fold_group_add c (rows t)); constructor).
  pose proof (sorted_keys_nodup _ _ Hs) as Hn.
  rewrite keys_finalized.
  split; [exact Hn | split; [|split]].
  - clear Hg Hn. induction Hs as [|k g' Hs IH Hk]; simpl; constructor.
    + assumption.
    + rewrite Forall_forall in *. intros x Hx.
      apply in_map_iff in Hx. destruct Hx as [y [<- Hy]].
      unfold key_lt. simpl. now apply Hk.
  - intro c. rewrite <- assoc_in, Hg.
    pose proof (tally_none c (rows t)) as H.
    destruct (fold_left (tally c) (rows t) None).
    + split; [tauto | discriminate].
    + split; [congruence | tauto].
  - intros c s Hin. apply in_map_iff in Hin.
    destruct Hin as [[c' p] [E Hin]]. cbn [fst snd] in E.
    inversion E; subst c' s; clear E.
    pose proof (in_assoc _ _ _ _ Hn Hin) as E.
    rewrite Hg in E. pose proof (tally_none c (rows t)) as H.
    rewrite E in H. destruct H as [-> _].
    rewrite <- sum_sql_total. reflexivity.
Qed.

(** Within one category the sum of 10^16 and 1 is 10^16. *)
Lemma select_sum_by_category_rounds :
  select_sum_by_category large_and_small
  = [("Food", Some (float_of_Z (10 ^ 16)))]
  /\ ~ (exact (float_of_Z (10 ^ 16))
        == arithmetic_sum
             (numbers (map amount
                (filter (in_category "Food") (rows large_and_small)))))%Q.
Proof.
  split; [vm_compute; reflexivity|].
  vm_compute. discriminate.
Qed.

End Groups.

(* ------------------------------------------------------------------ *)
(** ** Numbers above the limit *)

Section Above.

Local Open Scope Z_scope.

Lemma digits2_pos_bounds (m : positive) :
  2 ^ (Z.pos (digits2_pos m) - 1) <= Z.pos m < 2 ^ Z.pos (digits2_pos m).
Proof.
  induction m as [p IH|p IH|]; cbn [digits2_pos].
  - rewrite Pos2Z.inj_succ.
    replace (Z.succ (Z.pos (digits2_pos p)) - 1)
      with (Z.succ (Z.pos (digits2_pos p) - 1)) by lia.
    rewrite !Z.pow_succ_r by lia. lia.
  - rewrite Pos2Z.inj_succ.
    replace (Z.succ (Z.pos (digits2_pos p)) - 1)
      with (Z.succ (Z.pos (digits2_pos p) - 1)) by lia.
    rewrite !Z.pow_succ_r by lia. lia.
  - cbn. lia.
Qed.

Lemma limit_eq : limit = S754_finite false 8246337208320000 (-38).
Proof. vm_compute. reflexivity. Qed.

(** A binary64 number is above the limit exactly when its value is
    above 30000. *)
Lemma over_limit_above (x : float) :
  valid_binary prec emax x = true ->
  (over_limit x = true <-> above x 30000).
Proof.
  unfold over_limit, fgt, SFltb. rewrite limit_eq.
  destruct x as [s|s| |s m e]; cbn [valid_binary SFcompare above].
  - intros _. split; [discriminate | lia].
  - intros _. destruct s; split; congruence.
  - intros _. split; [discriminate | contradiction].
  - unfold bounded, canonical_mantissa, fexp, emin, prec, emax.
    intro H. apply andb_true_iff in H. destruct H as [H _].
    apply Z.eqb_eq in H.
    pose proof (digits2_pos_bounds m) as [Hlo Hhi].
    destruct s.
    + split; [discriminate|]. intro A. exfalso.
      assert (0 < 2 ^ Z.max 0 (- e)) by (apply Z.pow_pos_nonneg; lia).
      assert (0 < 2 ^ Z.max 0 e) by (apply Z.pow_pos_nonneg; lia).
      nia.
    + destruct (Z.compare_spec (-38) e) as [E|E|E].
      * subst e. change (Z.max 0 (- -38)) with 38.
        change (Z.max 0 (-38)) with 0.
        change (Pos.compare_cont Eq 8246337208320000 m)
          with (8246337208320000 ?= m)%positive.
        rewrite Pos2Z.inj_compare.
        destruct (Z.compare_spec 8246337208320000 (Z.pos m));
          split; try discriminate; try reflexivity; lia.
      * split; [intros _|reflexivity].
        assert (D : Z.pos (digits2_pos m) = 53) by lia.
        rewrite D in Hlo. change (2 ^ (53 - 1)) with 4503599627370496 in Hlo.
        destruct (Z.le_gt_cases 0 e) as [P|N].
        -- rewrite (Z.max_l 0 (- e)), (Z.max_r 0 e) by lia.
           assert (1 <= 2 ^ e) by (apply (Z.pow_le_mono_r 2 0 e); lia).
           nia.
        -- rewrite (Z.max_r 0 (- e)), (Z.max_l 0 e) by lia.
           assert (2 ^ (- e) <= 2 ^ 37) by (apply Z.pow_le_mono_r; lia).
           change (2 ^ 37) with 137438953472 in *. lia.
      * split; [discriminate|]. intro A. exfalso.
        rewrite (Z.max_r 0 (- e)), (Z.max_l 0 e) in A by lia.
        assert (D : Z.pos (digits2_pos m) <= 53) by lia.
        assert (2 ^ Z.pos (digits2_pos m) <= 2 ^ 53)
          by (apply Z.pow_le_mono_r; lia).
        assert (2 ^ 39 <= 2 ^ (- e)) by (apply Z.pow_le_mono_r; lia).
        change (2 ^ 53) with 9007199254740992 in *.
        change (2 ^ 39) with 549755813888 in *. lia.
Qed.

End Above.

(* ------------------------------------------------------------------ *)
(** ** The chart *)

Section Chart.

Lemma SFcompare_antisym (x y : float) :
  SFcompare y x = option_map CompOpp (SFcompare x y).
Proof.
  destruct x as [sx|sx| |sx mx ex], y as [sy|sy| |sy my ey];
    try reflexivity;
    try (destruct sx; reflexivity); try (destruct sy; reflexivity);
    try (destruct sx, sy; reflexivity).
  cbn [SFcompare option_map]. f_equal.
  change (Pos.compare_cont Eq my mx) with (Pos.compare my mx).
  change (Pos.compare_cont Eq mx my) with (Pos.compare mx my).
  rewrite (Z.compare_antisym ex ey), (Pos.compare_antisym mx my).
  destruct sx, sy, (ex ?= ey)%Z, (mx ?= my)%positive; reflexivity.
Qed.

Lemma over_limit_spec (x : float) :
  coloured (Some x) (if over_limit x then red else skyblue).
Proof.
  exists x. split; [reflexivity|].
  unfold over_limit, fgt, SFltb. generalize limit. intro y.
  rewrite (SFcompare_antisym x y).
  destruct (SFcompare x y) as [[| |]|];
    cbn [option_map CompOpp]; repeat split; intros;
    try congruence; try discriminate.
Qed.

(** The colours are computed unless a total is NULL. *)
Lemma colors_of_spec (l : list real) :
  match colors_of l with
  | Some cs => Forall2 coloured l cs
  | None => In None l
  end.
Proof.
  induction l as [|[x|] l IH]; cbn [colors_of].
  - constructor.
  - destruct (colors_of l) as [cs|].
    + constructor; [apply over_limit_spec | assumption].
    + now right.
  - now left.
Qed.

(** C9. Whatever the plotting library does, [plot_category_expenses]
    prints its message and draws nothing exactly when there is no
    category total; otherwise, when every total is a number, it hands
    over one bar per category total, red exactly when the total compares
    strictly above 30000 and skyblue otherwise, so that a total of
    exactly 30000 is skyblue; Food 35000 is red, Food 5000 is skyblue.
    For a binary64 number, to compare strictly above 30000 is to have a
    value strictly above 30000.  When a total is NULL the function
    raises [TypeError] before anything is drawn, as after an add of the
    amount [nan]. *)
Theorem plot_category_expenses_colors :
  (forall (pyplot : chart -> option exn) (t : table),
      match plot_category_expenses pyplot t with
      | NoExpensesToDisplay => select_sum_by_category t = []
      | Shown ch | Crashed _ (Some ch) =>
          select_sum_by_category t <> []
          /\ categories ch = map fst (select_sum_by_category t)
          /\ amounts ch = map snd (select_sum_by_category t)
          /\ Forall2 coloured (amounts ch) (colors ch)
      | Crashed e None =>
          e = TypeError /\ In None (map snd (select_sum_by_category t))
      end)
  /\ (if over_limit (float_of_Z 30000) then red else skyblue) = skyblue
  /\ bar_colors
       (plot_category_expenses draws (one_category (float_of_Z 35000)))
     = [red]
  /\ bar_colors
       (plot_category_expenses draws (one_category (float_of_Z 5000)))
     = [skyblue]
  /\ (forall pyplot : chart -> option exn,
        plot_category_expenses pyplot not_a_number = Crashed TypeError None)
  /\ (forall x : float,
        valid_binary prec emax x = true ->
        (over_limit x = true <-> above x 30000)).
Proof.
  split; [|split; [|split; [|split; [|split]]]];
    [| vm_compute; reflexivity | vm_compute; reflexivity
     | vm_compute; reflexivity | intro; vm_compute; reflexivity
     | exact over_limit_above].
  intros pyplot t. unfold plot_category_expenses.
  destruct (select_sum_by_category t) as [|k g] eqn:E; [reflexivity|].
  pose proof (colors_of_spec (map snd (k :: g))) as H.
  destruct (colors_of (map snd (k :: g))) as [cs|].
  - destruct (pyplot _); cbn [categories amounts colors];
      repeat split; try discriminate; exact H.
  - split; [reflexivity | exact H].
Qed.

End Chart.
(* ------------------------------------------------------------------ *)
(** ** Characters, by enumeration *)

Section Characters.

Lemma in_all_ascii (c : ascii) : In c all_ascii.
Proof.
  unfold all_ascii. apply in_map_iff. exists (nat_of_ascii c). split.
  - apply ascii_nat_embedding.
  - apply in_seq. pose proof (nat_ascii_bounded c). lia.
Qed.

Lemma for_all_ascii (p : ascii -> bool) :
  forallb p all_ascii = true -> forall c, p c = true.
Proof.
  intros H c. rewrite forallb_forall in H. apply H, in_all_ascii.
Qed.

Lemma for_all_ascii2 (p : ascii -> ascii -> bool) :
  forallb (fun a => forallb (p a) all_ascii) all_ascii = true ->
  forall a b, p a b = true.
Proof.
  intros H a b. apply for_all_ascii.
  apply (for_all_ascii (fun a => forallb (p a) all_ascii) H).
Qed.

Local Open Scope Z_scope.

Lemma month2_spec (a b : ascii) :
  month2 a b
  = is_digit a && is_digit b && (1 <=? num2 a b) && (num2 a b <=? 12).
Proof.
  apply Bool.eqb_prop. revert a b. apply for_all_ascii2.
  vm_compute. reflexivity.
Qed.

Lemma day2_spec (a b : ascii) :
  day2 a b
  = is_digit a && is_digit b && (1 <=? num2 a b) && (num2 a b <=? 31).
Proof.
  apply Bool.eqb_prop. revert a b. apply for_all_ascii2.
  vm_compute. reflexivity.
Qed.

Lemma range19_spec (b : ascii) :
  in_range "1" "9" b = is_digit b && (1 <=? digit_val b).
Proof.
  apply Bool.eqb_prop. revert b. apply for_all_ascii.
  vm_compute. reflexivity.
Qed.

Lemma digit_not_space (c : ascii) : is_digit c = true -> is_space c = false.
Proof.
  intro H. apply negb_true_iff. revert H. apply implb_true_iff.
  revert c. apply for_all_ascii. vm_compute. reflexivity.
Qed.

Lemma digit_not_int_space (c : ascii) :
  is_digit c = true -> int_space c = false.
Proof.
  intro H. apply negb_true_iff. revert H. apply implb_true_iff.
  revert c. apply for_all_ascii. vm_compute. reflexivity.
Qed.

Lemma digit_not_sign (c : ascii) :
  is_digit c = true -> Ascii.eqb c "-" = false /\ Ascii.eqb c "+" = false.
Proof.
  intro H.
  assert (E : negb (Ascii.eqb c "-") && negb (Ascii.eqb c "+") = true).
  { revert H. apply implb_true_iff.
    revert c. apply for_all_ascii. vm_compute. reflexivity. }
  apply andb_true_iff in E. destruct E as [E1 E2].
  now rewrite negb_true_iff in E1, E2.
Qed.

Lemma digit_val_range (c : ascii) :
  is_digit c = true -> 0 <= digit_val c <= 9.
Proof.
  intro H.
  assert (E : (0 <=? digit_val c) && (digit_val c <=? 9) = true).
  { revert H. apply implb_true_iff.
    revert c. apply for_all_ascii. vm_compute. reflexivity. }
  apply andb_true_iff in E. lia.
Qed.

Lemma digit_char_val (c : ascii) :
  is_digit c = true -> digit_char (digit_val c) = c.
Proof.
  intro H. apply Ascii.eqb_eq. revert H. apply implb_true_iff.
  revert c. apply for_all_ascii. vm_compute. reflexivity.
Qed.

End Characters.

(* ------------------------------------------------------------------ *)
(** ** The date validator *)

Section DateValidation.

Lemma length_append (p s : string) :
  String.length (p ++ s) = (String.length p + String.length s)%nat.
Proof. induction p; simpl; [reflexivity | now rewrite IHp]. Qed.

Lemma take_append (p s : string) : take (String.length p) (p ++ s) = p.
Proof.
  unfold take. induction p as [|c p IH]; simpl.
  - now destruct s.
  - now rewrite IH.
Qed.

Lemma consumed_append (p s : string) : consumed (p ++ s) s = p.
Proof.
  unfold consumed. rewrite length_append.
  replace (String.length p + String.length s - String.length s)%nat
    with (String.length p) by lia.
  apply take_append.
Qed.


Lemma run_re_Y (a b c d : ascii) (rest : string) (caps : captures) :
  run re_Y (String a (String b (String c (String d rest)))) caps
  = if is_digit a && is_digit b && is_digit c && is_digit d
    then [(rest, ("Y", String a (String b (String c (String d ""))))
                   :: caps)]
    else [].
Proof.
  pose proof (consumed_append (String a (String b (String c (String d "")))) rest) as E.
  cbn [append] in E.
  unfold re_Y. step.
  destruct (is_digit a); step; [|reflexivity].
  destruct (is_digit b); step; [|reflexivity].
  destruct (is_digit c); step; [|reflexivity].
  destruct (is_digit d); step; [|reflexivity].
  now rewrite E.
Qed.


Lemma run_re_m (a b : ascii) (rest : string) (caps : captures) :
  run re_m (String a (String b rest)) caps
  = ((if month2 a b
     then [(rest, ("m", String a (String b "")) :: caps)] else [])
    ++ (if in_range "1" "9" a
        then [(String b rest, ("m", String a "") :: caps)] else []))%list.
Proof.
  pose proof (consumed_append (String a (String b "")) rest) as E2.
  pose proof (consumed_append (String a "") (String b rest)) as E1.
  cbn [append] in E1, E2.
  unfold re_m, month2. split_atoms; rewrite ?E1, ?E2; reflexivity.
Qed.

Lemma run_re_d (a b : ascii) (rest : string) (caps : captures) :
  run re_d (String a (String b rest)) caps
  = ((if day2 a b
     then [(rest, ("d", String a (String b "")) :: caps)] else [])
    ++ (if in_range "1" "9" a
        then [(String b rest, ("d", String a "") :: caps)] else [])
    ++ (if Ascii.eqb a " " && in_range "1" "9" b
        then [(rest, ("d", String a (String b "")) :: caps)] else []))%list.
Proof.
  pose proof (consumed_append (String a (String b "")) rest) as E2.
  pose proof (consumed_append (String a "") (String b rest)) as E1.
  cbn [append] in E1, E2.
  unfold re_d, day2. split_atoms; rewrite ?E1, ?E2; reflexivity.
Qed.

Lemma run_cat (r1 r2 : re) (s : string) (caps : captures) :
  run (Cat r1 r2) s caps
  = flat_map (fun k => run r2 (fst k) (snd k)) (run r1 s caps).
Proof. reflexivity. Qed.

Lemma run_dash (a : ascii) (s : string) (caps : captures) :
  run (Lit "-") (String a s) caps
  = if Ascii.eqb a "-" then [(s, caps)] else [].
Proof. reflexivity. Qed.

Lemma run_dash_re_d (a b c : ascii) (rest : string) (caps : captures) :
  run (Cat (Lit "-") re_d) (String a (String b (String c rest))) caps
  = if Ascii.eqb a "-" then run re_d (String b (String c rest)) caps else [].
Proof.
  rewrite run_cat, run_dash.
  destruct (Ascii.eqb a "-"); cbn [flat_map fst snd]; [|reflexivity].
  apply app_nil_r.
Qed.

Lemma run_re_d_dash (b : ascii) (rest : string) (caps : captures) :
  run re_d (String "-" (String b rest)) caps = [].
Proof. rewrite run_re_d. unfold day2. eval_closed. reflexivity. Qed.

Lemma re_match_ymd (c0 c1 c2 c3 c5 c6 c8 c9 : ascii) :
  re_match re_ymd
    (String c0 (String c1 (String c2 (String c3 (String "-"
       (String c5 (String c6 (String "-" (String c8 (String c9 ""))))))))))
  = if is_digit c0 && is_digit c1 && is_digit c2 && is_digit c3
       && month2 c5 c6
    then
      let ym := [("m", String c5 (String c6 ""));
                 ("Y", String c0 (String c1 (String c2 (String c3 ""))))] in
      if day2 c8 c9
      then Some (10, ("d", String c8 (String c9 "")) :: ym)
      else if in_range "1" "9" c8
      then Some (9, ("d", String c8 "") :: ym)
      else if Ascii.eqb c8 " " && in_range "1" "9" c9
      then Some (10, ("d", String c8 (String c9 "")) :: ym)
      else None
    else None.
Proof.
  unfold re_match, re_ymd. rewrite run_cat, run_re_Y.
  destruct (is_digit c0 && is_digit c1 && is_digit c2 && is_digit c3);
    [|reflexivity].
  cbn [flat_map fst snd andb]. rewrite app_nil_r.
  rewrite run_cat, run_dash. eval_closed.
  cbn [flat_map fst snd andb]. rewrite app_nil_r.
  rewrite run_cat, run_re_m, flat_map_app.
  destruct (in_range "1" "9" c5); destruct (month2 c5 c6);
    cbn [flat_map fst snd app]; rewrite ?app_nil_r;
    rewrite ?run_dash_re_d; eval_closed;
    repeat match goal with
    | |- context [if Ascii.eqb c6 "-" then _ else _] =>
        destruct (Ascii.eqb c6 "-")
    end;
    rewrite ?run_re_d_dash, ?app_nil_r; try reflexivity.
  all: rewrite run_re_d;
    destruct (day2 c8 c9); [reflexivity|];
    destruct (in_range "1" "9" c8); [reflexivity|];
    destruct (Ascii.eqb c8 " " && in_range "1" "9" c9); reflexivity.
Qed.

Lemma rstrip_digits (s : string) : all_digits s = true -> rstrip s = s.
Proof.
  induction s as [|c s IH]; simpl; [reflexivity|].
  intro H. apply andb_true_iff in H. destruct H as [Hc Hs].
  rewrite (IH Hs). destruct s; [|reflexivity].
  now rewrite (digit_not_space c Hc).
Qed.

Lemma strip_digits (s : string) : all_digits s = true -> strip s = s.
Proof.
  intro H. unfold strip.
  assert (E : lstrip s = s).
  { destruct s as [|c s]; [reflexivity|]. simpl in *.
    apply andb_true_iff in H. now rewrite (digit_not_space c (proj1 H)). }
  rewrite E. now apply rstrip_digits.
Qed.

Lemma rstrip_by_digits (s : string) :
  all_digits s = true -> rstrip_by int_space s = s.
Proof.
  induction s as [|c s IH]; simpl; [reflexivity|].
  intro H. apply andb_true_iff in H. destruct H as [Hc Hs].
  rewrite (IH Hs). destruct s; [|reflexivity].
  now rewrite (digit_not_int_space c Hc).
Qed.

Lemma literal_digits (s : string) (b : bool) (acc : Z) :
  all_digits s = true -> b = true \/ s <> "" ->
  literal b acc s = Some (decimal acc s).
Proof.
  revert b acc. induction s as [|c s IH]; intros b acc H Hb;
    cbn [literal decimal].
  - destruct Hb as [->|Hb]; [reflexivity | congruence].
  - cbn [all_digits] in H. apply andb_true_iff in H. destruct H as [Hc Hs].
    rewrite Hc. apply IH; [assumption | now left].
Qed.

Lemma py_int_digits (c : ascii) (s : string) :
  all_digits (String c s) = true ->
  py_int (String c s) = Some (decimal 0 (String c s)).
Proof.
  intro H. unfold py_int.
  pose proof H as H'. cbn [all_digits] in H'. apply andb_true_iff in H'.
  cbn [lstrip_by]. rewrite (digit_not_int_space c (proj1 H')).
  rewrite (rstrip_by_digits _ H).
  destruct (digit_not_sign c (proj1 H')) as [E1 E2].
  rewrite E1, E2. apply literal_digits; [assumption | right; discriminate].
Qed.

Lemma py_int_blank_digit (b : ascii) :
  is_digit b = true ->
  py_int (String " " (String b "")) = Some (digit_val b).
Proof.
  intro H. unfold py_int.
  change (lstrip_by int_space (String " " (String b "")))
    with (lstrip_by int_space (String b "")).
  cbn [lstrip_by]. rewrite (digit_not_int_space b H).
  cbn [rstrip_by]. rewrite (digit_not_int_space b H).
  destruct (digit_not_sign b H) as [E1 E2]. rewrite E1, E2.
  cbn [literal]. now rewrite H.
Qed.

Lemma decimal_num4 (a b c d : ascii) :
  decimal 0 (String a (String b (String c (String d "")))) = num4 a b c d.
Proof. unfold num4. cbn [decimal]. ring. Qed.

Lemma decimal_num2 (a b : ascii) :
  decimal 0 (String a (String b "")) = num2 a b.
Proof. unfold num2. cbn [decimal]. ring. Qed.

Lemma py_int_4 (a b c d : ascii) :
  is_digit a && is_digit b && is_digit c && is_digit d = true ->
  py_int (String a (String b (String c (String d ""))))
  = Some (num4 a b c d).
Proof.
  intro H. rewrite py_int_digits, decimal_num4; [reflexivity|].
  cbn [all_digits]. rewrite andb_true_r, !andb_assoc. exact H.
Qed.

Lemma py_int_2 (a b : ascii) :
  is_digit a && is_digit b = true ->
  py_int (String a (String b "")) = Some (num2 a b).
Proof.
  intro H. rewrite py_int_digits, decimal_num2; [reflexivity|].
  cbn [all_digits]. rewrite andb_true_r. exact H.
Qed.

Lemma month2_digits (a b : ascii) :
  month2 a b = true -> is_digit a && is_digit b = true.
Proof.
  rewrite month2_spec. intro H.
  apply andb_true_iff in H. destruct H as [H _].
  apply andb_true_iff in H. now destruct H as [H _].
Qed.

Lemma day2_digits (a b : ascii) :
  day2 a b = true -> is_digit a && is_digit b = true.
Proof.
  rewrite day2_spec. intro H.
  apply andb_true_iff in H. destruct H as [H _].
  apply andb_true_iff in H. now destruct H as [H _].
Qed.

Lemma digit_not_blank (a : ascii) :
  is_digit a = true -> Ascii.eqb a " " = false.
Proof.
  intro H. apply negb_true_iff. revert H. apply implb_true_iff.
  revert a. apply for_all_ascii. vm_compute. reflexivity.
Qed.

Lemma strptime_ten (c0 c1 c2 c3 c5 c6 c8 c9 : ascii) :
  strptime_ymd (ten c0 c1 c2 c3 "-" c5 c6 "-" c8 c9)
  = if is_digit c0 && is_digit c1 && is_digit c2 && is_digit c3
       && month2 c5 c6 && day_ok c8 c9
    then make_date (num4 c0 c1 c2 c3) (num2 c5 c6) (day_val c8 c9)
    else None.
Proof.
  unfold strptime_ymd, ten. rewrite re_match_ymd.
  destruct (is_digit c0 && is_digit c1 && is_digit c2 && is_digit c3)
    eqn:Y; [|reflexivity].
  destruct (month2 c5 c6) eqn:M; [|reflexivity].
  cbn [andb]. cbv zeta.
  pose proof (py_int_4 _ _ _ _ Y) as EY.
  pose proof (py_int_2 _ _ (month2_digits _ _ M)) as EM.
  unfold day_ok, day_val.
  destruct (day2 c8 c9) eqn:D.
  - pose proof (day2_digits _ _ D) as D'.
    pose proof (py_int_2 _ _ D') as ED.
    apply andb_true_iff in D'. rewrite (digit_not_blank _ (proj1 D')).
    cbn [orb String.length Nat.eqb negb group String.eqb Ascii.eqb Bool.eqb].
    now rewrite EY, EM, ED.
  - cbn [orb]. destruct (in_range "1" "9" c8) eqn:R8.
    + rewrite range19_spec in R8. apply andb_true_iff in R8.
      rewrite (digit_not_blank _ (proj1 R8)). reflexivity.
    + destruct (Ascii.eqb_spec c8 " ") as [->|N8]; [|reflexivity].
      cbn [andb]. destruct (in_range "1" "9" c9) eqn:R9; [|reflexivity].
      rewrite range19_spec in R9. apply andb_true_iff in R9.
      pose proof (py_int_blank_digit _ (proj1 R9)) as ED.
      cbn [orb String.length Nat.eqb negb group String.eqb Ascii.eqb
             Bool.eqb].
      now rewrite EY, EM, ED.
Qed.

Lemma check_date_ten (zp : bool) (c0 c1 c2 c3 c4 c5 c6 c7 c8 c9 : ascii) :
  check_date zp (ten c0 c1 c2 c3 c4 c5 c6 c7 c8 c9)
  = if negb (Ascii.eqb c4 "-") || negb (Ascii.eqb c7 "-") then InvalidFormat
    else if is_digit c0 && is_digit c1 && is_digit c2 && is_digit c3
            && month2 c5 c6 && day_ok c8 c9
            && valid_date (num4 c0 c1 c2 c3) (num2 c5 c6) (day_val c8 c9)
    then Accepted (strftime_ymd zp
                     (mkDate (num4 c0 c1 c2 c3) (num2 c5 c6) (day_val c8 c9)))
    else InvalidDate.
Proof.
  unfold check_date.
  change (negb (Nat.eqb (String.length (ten c0 c1 c2 c3 c4 c5 c6 c7 c8 c9)) 10))
    with false.
  change (differs_at (ten c0 c1 c2 c3 c4 c5 c6 c7 c8 c9) 4 "-")
    with (negb (Ascii.eqb c4 "-")).
  change (differs_at (ten c0 c1 c2 c3 c4 c5 c6 c7 c8 c9) 7 "-")
    with (negb (Ascii.eqb c7 "-")).
  cbn [orb].
  destruct (Ascii.eqb_spec c4 "-") as [->|]; [|reflexivity].
  destruct (Ascii.eqb_spec c7 "-") as [->|]; [|reflexivity].
  cbn [negb orb]. rewrite strptime_ten. unfold make_date.
  destruct (is_digit c0 && is_digit c1 && is_digit c2 && is_digit c3
            && month2 c5 c6 && day_ok c8 c9); [|reflexivity].
  cbn [andb].
  now destruct (valid_date (num4 c0 c1 c2 c3) (num2 c5 c6) (day_val c8 c9)).
Qed.

Lemma length_ten (s : string) :
  String.length s = 10%nat ->
  exists c0 c1 c2 c3 c4 c5 c6 c7 c8 c9,
    s = ten c0 c1 c2 c3 c4 c5 c6 c7 c8 c9.
Proof.
  intro H.
  do 10 (destruct s as [|? s]; [discriminate|]).
  destruct s; [|discriminate].
  repeat eexists.
Qed.

Lemma check_date_length (zp : bool) (raw : string) :
  Nat.eqb (String.length raw) 10 = false -> check_date zp raw = InvalidFormat.
Proof. intro H. unfold check_date. now rewrite H. Qed.


Local Open Scope Z_scope.

Lemma valid_date_bounds (y m d : Z) :
  valid_date y m d = true ->
  1 <= y <= 9999 /\ 1 <= m <= 12 /\ 1 <= d <= 31.
Proof.
  unfold valid_date, days_in_month. intro H.
  repeat (apply andb_true_iff in H; destruct H as [H ?]).
  destruct (m =? 2); [destruct (is_leap y)|];
    [| |destruct ((m =? 4) || (m =? 6) || (m =? 9) || (m =? 11))]; lia.
Qed.

Lemma zero_pad_day_ten (c0 c1 c2 c3 c4 c5 c6 c7 c8 c9 : ascii) :
  zero_pad_day (ten c0 c1 c2 c3 c4 c5 c6 c7 c8 c9)
  = ten c0 c1 c2 c3 c4 c5 c6 c7 (if Ascii.eqb c8 " " then "0"%char else c8) c9.
Proof.
  unfold zero_pad_day, ten. cbn [String.get].
  destruct (Ascii.eqb c8 " "); reflexivity.
Qed.

Lemma accepts_ten (c0 c1 c2 c3 c4 c5 c6 c7 c8 c9 : ascii) :
  accepts (ten c0 c1 c2 c3 c4 c5 c6 c7 c8 c9)
  = strict_ymd (zero_pad_day (ten c0 c1 c2 c3 c4 c5 c6 c7 c8 c9)).
Proof.
  rewrite zero_pad_day_ten. unfold accepts. rewrite check_date_ten.
  unfold ten, strict_ymd.
  destruct (Ascii.eqb c4 "-"); [|cbn [negb orb]; now rewrite !andb_false_r].
  destruct (Ascii.eqb c7 "-"); [|cbn [negb orb];
    now rewrite ?andb_false_r, ?andb_false_l].
  cbn [negb orb]. rewrite !andb_true_r.
  destruct (is_digit c0 && is_digit c1 && is_digit c2 && is_digit c3);
    [|reflexivity].
  cbn [andb]. rewrite month2_spec. unfold day_ok, day_val.
  rewrite day2_spec, range19_spec.
  destruct (Ascii.eqb_spec c8 " ") as [->|N8].
  - change (is_digit " ") with false. change (is_digit "0") with true.
    change (Ascii.eqb " " " ") with true. cbv iota.
    replace (num2 "0" c9) with (digit_val c9) by (unfold num2; cbn; ring).
    cbn [andb orb].
    destruct (valid_date (num4 c0 c1 c2 c3) (num2 c5 c6) (digit_val c9)) eqn:V.
    + apply valid_date_bounds in V.
      destruct (is_digit c5), (is_digit c6), (is_digit c9);
        cbn [andb]; rewrite ?andb_false_r; try reflexivity.
      replace (1 <=? num2 c5 c6) with true by (symmetry; apply Z.leb_le; lia).
      replace (num2 c5 c6 <=? 12) with true by (symmetry; apply Z.leb_le; lia).
      replace (1 <=? digit_val c9) with true by (symmetry; apply Z.leb_le; lia).
      reflexivity.
    + now rewrite ?andb_false_r.
  - cbn [andb]. rewrite orb_false_r. cbv iota.
    destruct (valid_date (num4 c0 c1 c2 c3) (num2 c5 c6) (num2 c8 c9)) eqn:V.
    + apply valid_date_bounds in V.
      destruct (is_digit c5), (is_digit c6), (is_digit c8), (is_digit c9);
        cbn [andb]; rewrite ?andb_false_r; try reflexivity.
      replace (1 <=? num2 c5 c6) with true by (symmetry; apply Z.leb_le; lia).
      replace (num2 c5 c6 <=? 12) with true by (symmetry; apply Z.leb_le; lia).
      replace (1 <=? num2 c8 c9) with true by (symmetry; apply Z.leb_le; lia).
      replace (num2 c8 c9 <=? 31) with true by (symmetry; apply Z.leb_le; lia).
      reflexivity.
    + now rewrite ?andb_false_r.
Qed.

Lemma length_replace_at (n : nat) (c : ascii) (s : string) :
  String.length (replace_at n c s) = String.length s.
Proof.
  revert n. induction s as [|a s IH]; intros [|n]; simpl; auto.
Qed.

Lemma length_zero_pad_day (s : string) :
  String.length (zero_pad_day s) = String.length s.
Proof.
  unfold zero_pad_day. destruct (String.get 8 s) as [c|]; [|reflexivity].
  destruct (Ascii.eqb c " "); [apply length_replace_at | reflexivity].
Qed.

Lemma strict_ymd_length (s : string) :
  strict_ymd s = true -> String.length s = 10%nat.
Proof.
  unfold strict_ymd.
  do 10 (destruct s as [|? s]; [discriminate|]).
  destruct s; [reflexivity | discriminate].
Qed.

Lemma accepts_strict (raw : string) :
  accepts raw = strict_ymd (zero_pad_day raw).
Proof.
  destruct (Nat.eqb (String.length raw) 10) eqn:L.
  - apply Nat.eqb_eq in L.
    destruct (length_ten _ L)
      as (c0 & c1 & c2 & c3 & c4 & c5 & c6 & c7 & c8 & c9 & ->).
    apply accepts_ten.
  - unfold accepts. rewrite (check_date_length _ _ L).
    destruct (strict_ymd (zero_pad_day raw)) eqn:S; [|reflexivity].
    apply strict_ymd_length in S. rewrite length_zero_pad_day in S.
    rewrite S in L. discriminate.
Qed.

Lemma accepts_any_platform (zp : bool) (raw : string) :
  (exists s, check_date zp raw = Accepted s) <-> accepts raw = true.
Proof.
  unfold accepts, check_date.
  destruct (negb (Nat.eqb (String.length raw) 10)
            || differs_at raw 4 "-" || differs_at raw 7 "-").
  - split; [intros [s H]|]; discriminate.
  - destruct (strptime_ymd raw).
    + split; [reflexivity | intros _; eexists; reflexivity].
    + split; [intros [s H]|]; discriminate.
Qed.

Lemma pad2_num2 (a b : ascii) :
  is_digit a && is_digit b = true -> pad2 (num2 a b) = String a (String b "").
Proof.
  intro H. apply String.eqb_eq. revert H. apply implb_true_iff.
  revert a b. apply for_all_ascii2. vm_compute. reflexivity.
Qed.

Lemma pad2_digit (b : ascii) :
  is_digit b = true -> pad2 (digit_val b) = String "0" (String b "").
Proof.
  intro H. apply String.eqb_eq. revert H. apply implb_true_iff.
  revert b. apply for_all_ascii. vm_compute. reflexivity.
Qed.

Lemma pad4_num4 (a b c d : ascii) :
  is_digit a && is_digit b && is_digit c && is_digit d = true ->
  pad4 (num4 a b c d) = String a (String b (String c (String d ""))).
Proof.
  intro H.
  apply andb_true_iff in H. destruct H as [H Hd].
  apply andb_true_iff in H. destruct H as [H Hc].
  apply andb_true_iff in H. destruct H as [Ha Hb].
  pose proof (digit_val_range _ Ha). pose proof (digit_val_range _ Hb).
  pose proof (digit_val_range _ Hc). pose proof (digit_val_range _ Hd).
  unfold pad4.
  replace (num4 a b c d / 1000) with (digit_val a)
    by (unfold num4; Z.div_mod_to_equations; lia).
  replace (num4 a b c d / 100 mod 10) with (digit_val b)
    by (unfold num4; Z.div_mod_to_equations; lia).
  replace (num4 a b c d mod 100) with (num2 c d)
    by (unfold num4, num2; Z.div_mod_to_equations; lia).
  rewrite pad2_num2 by (now rewrite Hc, Hd).
  now rewrite !digit_char_val.
Qed.

Lemma fmt_year_num4 (zp : bool) (a b c d : ascii) :
  is_digit a && is_digit b && is_digit c && is_digit d = true ->
  zp = true \/ a <> "0"%char ->
  fmt_year zp (num4 a b c d) = String a (String b (String c (String d ""))).
Proof.
  intros H Hz. unfold fmt_year. rewrite (pad4_num4 _ _ _ _ H).
  destruct zp; [reflexivity|].
  destruct Hz as [Hz|Hz]; [discriminate|].
  cbn [drop_zeros]. apply Ascii.eqb_neq in Hz. now rewrite Hz.
Qed.

Lemma check_date_returns (zp : bool) (raw s : string) :
  check_date zp raw = Accepted s ->
  zp = true \/ String.get 0 raw <> Some "0"%char ->
  s = zero_pad_day raw.
Proof.
  intros H Hz.
  destruct (Nat.eqb (String.length raw) 10) eqn:L;
    [|rewrite (check_date_length _ _ L) in H; discriminate].
  apply Nat.eqb_eq in L.
  destruct (length_ten _ L)
    as (c0 & c1 & c2 & c3 & c4 & c5 & c6 & c7 & c8 & c9 & ->).
  rewrite zero_pad_day_ten. rewrite check_date_ten in H.
  destruct (Ascii.eqb_spec c4 "-") as [->|]; [|discriminate].
  destruct (Ascii.eqb_spec c7 "-") as [->|]; [|discriminate].
  cbn [negb orb] in H.
  destruct (is_digit c0 && is_digit c1 && is_digit c2 && is_digit c3) eqn:Y;
    [|discriminate].
  destruct (month2 c5 c6) eqn:M; [|discriminate].
  destruct (day_ok c8 c9) eqn:D; [|discriminate].
  destruct (valid_date _ _ _); [|discriminate].
  cbn [andb] in H. injection H as <-.
  unfold strftime_ymd. cbn [year month day].
  rewrite (fmt_year_num4 zp _ _ _ _ Y).
  2:{ destruct Hz as [Hz|Hz]; [now left | right]. intros ->. now apply Hz. }
  rewrite (pad2_num2 _ _ (month2_digits _ _ M)).
  unfold day_ok, day_val in *.
  destruct (Ascii.eqb_spec c8 " ") as [->|N8].
  - change (day2 " " c9) with false in D. cbn [orb andb] in D.
    rewrite range19_spec in D. apply andb_true_iff in D.
    rewrite (pad2_digit _ (proj1 D)). reflexivity.
  - cbn [andb] in D. rewrite orb_false_r in D.
    rewrite (pad2_num2 _ _ (day2_digits _ _ D)). reflexivity.
Qed.

Lemma zero_pad_day_id (raw : string) :
  String.get 8 raw <> Some " "%char -> zero_pad_day raw = raw.
Proof.
  unfold zero_pad_day. destruct (String.get 8 raw) as [c|]; [|reflexivity].
  destruct (Ascii.eqb_spec c " ") as [->|]; [|reflexivity].
  intro H. now elim H.
Qed.

Lemma rejected_verdict (zp : bool) (raw : string) :
  accepts raw = false ->
  check_date zp raw = InvalidFormat \/ check_date zp raw = InvalidDate.
Proof.
  intro H. destruct (check_date zp raw) as [s| |] eqn:E; [|now left|now right].
  assert (A : accepts raw = true)
    by (apply (accepts_any_platform zp); now exists s).
  congruence.
Qed.

Lemma get_replace_at_other (n k : nat) (c : ascii) (s : string) :
  n <> k -> String.get k (replace_at n c s) = String.get k s.
Proof.
  revert n k. induction s as [|a s IH]; intros [|n] [|k] H; cbn;
    try reflexivity; try congruence.
  apply IH. congruence.
Qed.

Lemma get_zero_pad_day_0 (s : string) :
  String.get 0 (zero_pad_day s) = String.get 0 s.
Proof.
  unfold zero_pad_day. destruct (String.get 8 s) as [c|]; [|reflexivity].
  destruct (Ascii.eqb c " "); [|reflexivity].
  now apply get_replace_at_other.
Qed.

Lemma strict_ymd_no_blank (s : string) :
  strict_ymd s = true -> zero_pad_day s = s.
Proof.
  intro H. pose proof (strict_ymd_length _ H) as L.
  destruct (length_ten _ L)
    as (c0 & c1 & c2 & c3 & c4 & c5 & c6 & c7 & c8 & c9 & ->).
  rewrite zero_pad_day_ten. unfold ten, strict_ymd in *.
  repeat (apply andb_true_iff in H; destruct H as [H ?]).
  match goal with D : is_digit c8 = true |- _ =>
    now rewrite (digit_not_blank _ D) end.
Qed.

(** C3. Every date written YYYY-MM-DD (ten characters, [-] at
    positions 4 and 7, digits 0 to 9 elsewhere, year 1 to 9999, month 1
    to 12, day within the month) is accepted, whether or not [strftime]
    pads the year; ["2025-08-03"] is accepted; ["2025/08/03"],
    ["2025-13-01"] and every string whose length is not 10 are rejected.
    The validator accepts more than such dates: ["2025-08- 3"], its day
    written with a blank, is accepted. *)
Theorem check_date_lenient :
  (forall raw, strict_ymd raw = true -> accepts raw = true)
  /\ (forall zp raw,
        (exists s, check_date zp raw = Accepted s) <-> accepts raw = true)
  /\ accepts "2025-08-03" = true
  /\ accepts "2025/08/03" = false
  /\ accepts "2025-13-01" = false
  /\ (forall raw,
        Nat.eqb (String.length raw) 10 = false -> accepts raw = false)
  /\ accepts "2025-08- 3" = true
  /\ strict_ymd "2025-08- 3" = false.
Proof.
  split.
  { intros raw H. now rewrite accepts_strict, (strict_ymd_no_blank _ H). }
  split; [exact accepts_any_platform|].
  split; [reflexivity|]. split; [reflexivity|]. split; [reflexivity|].
  split; [|split; reflexivity].
  intros raw L. unfold accepts. now rewrite (check_date_length _ _ L).
Qed.


Local Open Scope list_scope.

Lemma get_valid_date_rejects (zp : bool) (line : string)
  (rest : list string) (out : list message) :
  accepts (strip line) = false ->
  exists msg,
    get_valid_date zp (mkWorld (line :: rest) out)
    = get_valid_date zp (mkWorld rest (out ++ [msg])).
Proof.
  intro H. unfold get_valid_date. cbn [stdin stdout get_valid_date_loop].
  destruct (rejected_verdict zp _ H) as [E|E]; rewrite E;
    eexists; reflexivity.
Qed.

(** C4 (amended). [add_expense] does not look at the date: whatever the
    date string, it appends exactly one new row with the fields given
    (the amount as the column keeps it) and the next id.  Dates are
    checked by the caller: choice 1 of the menu takes the date from
    [get_valid_date], where a line that is not accepted changes nothing
    in the table and the prompt is repeated (the input ending there
    raises, the table untouched), and the row is added with the date
    [get_valid_date] returns for the first accepted line. *)
Theorem add_expense_validation_in_menu (zp : bool)
  (fl : string -> option float) (pyplot : chart -> option exn) (t : table) :
  (forall d c ds a,
      rows (add_expense t d c ds a)
      = rows t ++ [mkExpense (seq t + 1) d c ds (bind_real a)])
  /\ (forall line rest out,
        accepts (strip line) = false ->
        exists msg,
          menu_choice zp fl pyplot t "1" (mkWorld (line :: rest) out)
          = menu_choice zp fl pyplot t "1" (mkWorld rest (out ++ [msg])))
  /\ (forall out,
        menu_choice zp fl pyplot t "1" (mkWorld [] out)
        = Raises EOFError (mkWorld [] out))
  /\ (forall line d c ds a amount rest out,
        check_date zp (strip line) = Accepted d ->
        fl a = Some amount ->
        menu_choice zp fl pyplot t "1"
          (mkWorld (line :: c :: ds :: a :: rest) out)
        = Returns (add_expense t d c ds amount, true)
            (mkWorld rest (out ++ [ExpenseAdded]))).
Proof.
  split; [reflexivity|]. split; [|split].
  - intros line rest out H.
    destruct (get_valid_date_rejects zp line rest out H) as [msg E].
    exists msg. unfold menu_choice. cbn [String.eqb Ascii.eqb Bool.eqb].
    unfold bind at 1 6. now rewrite E.
  - reflexivity.
  - intros line d c ds a amount rest out Hd Ha.
    unfold menu_choice. cbn [String.eqb Ascii.eqb Bool.eqb].
    unfold bind at 1, get_valid_date.
    cbn [stdin stdout get_valid_date_loop]. rewrite Hd.
    unfold bind, input, convert, print, ret. cbn [stdin stdout].
    now rewrite Ha.
Qed.

End DateValidation.

(* ------------------------------------------------------------------ *)
(** ** Instances *)

Lemma numeric_entries :
  Forall numeric
    [("2025-08-01", "Food", "lunch", float_of_Z 20);
     ("2025-08-02", "Travel", "bus", float_of_Z 10)].
Proof. repeat constructor. Defined.

Lemma no_null_empty : no_null empty_table.
Proof. constructor. Defined.

Lemma view_expenses_insertion_order_witness :
  wf empty_table /\ no_null empty_table
  /\ NoDup (map id (listed (fst (view_expenses
       (add_all empty_table
          [("2025-08-01", "Food", "lunch", float_of_Z 20);
           ("2025-08-02", "Travel", "bus", float_of_Z 10)]))))).
Proof.
  split; [exact wf_empty|]. split; [exact no_null_empty|].
  apply (view_expenses_insertion_order empty_table
           [("2025-08-01", "Food", "lunch", float_of_Z 20);
            ("2025-08-02", "Travel", "bus", float_of_Z 10)]
           wf_empty no_null_empty numeric_entries).
Defined.

Lemma delete_expense_exactly_one_witness :
  wf three_rows /\ fits_int64 2 = true
  /\ exists t', delete_expense three_rows 2 = Done t'
                /\ delete_expense t' 2 = Done t'.
Proof.
  split; [exact wf_three_rows|]. split; [reflexivity|].
  destruct (proj1 (delete_expense_exactly_one three_rows 2 wf_three_rows)
              eq_refl) as (t' & H1 & _ & _ & _ & H2).
  exists t'. split; assumption.
Defined.

(** An id that no row has and that does not fit 64 bits: the delete
    raises. *)
Lemma delete_expense_unknown_id_raises :
  ~ In (2 ^ 63)%Z (map id (rows three_rows))
  /\ delete_expense three_rows (2 ^ 63) = Failed OverflowError three_rows.
Proof.
  split; [|reflexivity].
  simpl. intros [H|[H|[H|[]]]]; discriminate H.
Qed.

Lemma update_expense_frame_witness :
  fits_int64 7 = true
  /\ ~ In 7%Z (map id (rows three_rows))
  /\ update_expense three_rows 7 "2025-09-01" "Rent" "flat" (float_of_Z 900)
     = Done three_rows.
Proof.
  assert (H : ~ In 7%Z (map id (rows three_rows))).
  { simpl. intros [H|[H|[H|[]]]]; discriminate H. }
  split; [reflexivity|]. split; [exact H|].
  destruct (proj1 (update_expense_frame three_rows 7 "2025-09-01" "Rent"
                     "flat" (float_of_Z 900)) eq_refl)
    as (t' & H1 & _ & _ & _ & H2).
  rewrite H1. f_equal. exact (H2 H).
Defined.

(** An id that no row has and that does not fit 64 bits: the update
    raises. *)
Lemma update_expense_unknown_id_raises :
  ~ In (- 2 ^ 63 - 1)%Z (map id (rows three_rows))
  /\ update_expense three_rows (- 2 ^ 63 - 1) "2025-09-01" "Rent" "flat"
       (float_of_Z 900)
     = Failed OverflowError three_rows.
Proof.
  split; [|reflexivity].
  simpl. intros [H|[H|[H|[]]]]; discriminate H.
Qed.

Lemma plot_category_expenses_colors_witness :
  valid_binary prec emax (float_of_Z 35000) = true
  /\ above (float_of_Z 35000) 30000.
Proof.
  split; [reflexivity|].
  exact (proj1
           (proj2 (proj2 (proj2 (proj2 (proj2 plot_category_expenses_colors))))
              (float_of_Z 35000) eq_refl)
           eq_refl).
Defined.

Lemma check_date_lenient_witness :
  Nat.eqb (String.length "2025-8-3") 10 = false
  /\ accepts "2025-8-3" = false.
Proof.
  split; [reflexivity|].
  exact (proj1 (proj2 (proj2 (proj2 (proj2 (proj2 check_date_lenient)))))
           "2025-8-3" eq_refl).
Defined.



Lemma add_expense_validation_in_menu_witness :
  check_date true (strip " 2025-08-03 ") = Accepted "2025-08-03"
  /\ whole_number "20" = Some (float_of_Z 20)
  /\ menu_choice true whole_number draws empty_table "1"
       (mkWorld [" 2025-08-03 "; "Food"; "lunch"; "20"] [])
     = Returns
         (add_expense empty_table "2025-08-03" "Food" "lunch" (float_of_Z 20),
          true)
         (mkWorld [] [ExpenseAdded]).
Proof.
  split; [reflexivity|]. split; [reflexivity|].
  apply (add_expense_validation_in_menu true whole_number draws empty_table);
    reflexivity.
Defined.

(** [add_expense] takes a string that is no date and the table grows. *)
Lemma add_expense_takes_any_date :
  accepts "not a date" = false
  /\ rows (add_expense empty_table "not a date" "Food" "lunch"
             (float_of_Z 20))
     = [mkExpense 1 "not a date" "Food" "lunch" (Some (float_of_Z 20))]
  /\ rows (add_expense empty_table "not a date" "Food" "lunch"
             (float_of_Z 20))
     <> rows empty_table.
Proof. repeat split; try reflexivity; discriminate. Qed.

(* ------------------------------------------------------------------ *)
(** ** How the operations compose: ids and rows *)

Section Identifiers.

Local Open Scope list_scope.
Local Open Scope Z_scope.

Lemma add_all_snoc (t : table) (es : list entry) (e : entry) :
  add_all t (es ++ [e]) = add_entry (add_all t es) e.
Proof. unfold add_all. now rewrite fold_left_app. Qed.

Lemma seq_add_all (es : list entry) (t : table) :
  seq (add_all t es) = seq t + Z.of_nat (List.length es).
Proof.
  revert t. induction es as [|[[[d c] ds] a] es IH]; intro t.
  - cbn. lia.
  - cbn [add_all fold_left add_entry]. fold (add_all (add_expense t d c ds a) es).
    rewrite IH. cbn [add_expense insert seq List.length]. lia.
Qed.

Lemma ids_add_all (t : table) (es : list entry) :
  ids (add_all t es)
  = ids t ++ map (fun k => seq t + Z.of_nat k) (List.seq 1 (List.length es)).
Proof.
  unfold ids. induction es as [|e es IH] using rev_ind.
  - cbn. now rewrite app_nil_r.
  - rewrite add_all_snoc. destruct e as [[[d c] ds] a].
    cbn [add_entry add_expense insert rows].
    rewrite map_app, IH, seq_add_all, length_app. cbn [map id List.length].
    rewrite Nat.add_1_r, seq_S, map_app, app_assoc. cbn [map].
    do 2 f_equal. lia.
Qed.

(** X6. Ids are handed out by counting: after any run of adds the new
    rows carry the ids counter+1, counter+2, ... in the order of the adds
    (1, 2, 3, ... on a fresh table), and the counter has advanced by the
    number of adds. *)
Theorem add_all_ids (t : table) (es : list entry) :
  ids (add_all t es)
  = ids t ++ map (fun k => seq t + Z.of_nat k) (List.seq 1 (List.length es))
  /\ seq (add_all t es) = seq t + Z.of_nat (List.length es).
Proof. split; [apply ids_add_all | apply seq_add_all]. Qed.

Lemma ids_bounded_add_all (es : list entry) (t : table) (i : Z) :
  i <= seq t -> ~ In i (ids t) -> ~ In i (ids (add_all t es)).
Proof.
  intros Hi Hn. rewrite ids_add_all.
  intro H. apply in_app_or in H. destruct H as [H|H]; [contradiction|].
  apply in_map_iff in H. destruct H as [k [Hk Hin]].
  apply in_seq in Hin. lia.
Qed.

(** X7. An id that has been deleted is never handed out again, however
    many expenses are added afterwards; [delete_expense] deletes it
    whenever it fits 64 bits. *)
Theorem deleted_id_not_reused (t : table) (i : Z) (es : list entry) :
  wf t -> In i (ids t) ->
  ~ In i (ids (add_all (delete_where_id t i) es))
  /\ (fits_int64 i = true ->
      delete_expense t i = Done (delete_where_id t i)
      /\ ~ In i (ids (add_all (table_after (delete_expense t i)) es))).
Proof.
  intros [_ Hb] Hin.
  assert (H : ~ In i (ids (add_all (delete_where_id t i) es))).
  { apply ids_bounded_add_all.
    - cbn [delete_where_id seq].
      unfold ids in Hin. apply in_map_iff in Hin. destruct Hin as [r [<- Hr]].
      rewrite Forall_forall in Hb. now apply Hb.
    - apply delete_removes_id. }
  split; [exact H|].
  intro Hi. rewrite (delete_expense_fits _ _ Hi). now split.
Qed.

Lemma add_then_delete_rows (t : table) (d c ds : string) (a : float) :
  wf t ->
  rows (delete_where_id (add_expense t d c ds a) (seq t + 1)) = rows t.
Proof.
  intros [_ Hb].
  cbn [delete_where_id add_expense insert rows].
  rewrite filter_app. cbn [filter id]. rewrite Z.eqb_refl. cbn [negb].
  rewrite app_nil_r. apply filter_all.
  eapply Forall_impl; [|exact Hb]. cbv beta. intros r Hr.
  destruct (Z.eqb_spec (id r) (seq t + 1)); [lia | reflexivity].
Qed.

(** X8. Deleting the expense just added gives back the rows there were;
    only the counter stays advanced.  [delete_expense] does so whenever
    the new id fits 64 bits. *)
Theorem add_then_delete (t : table) (d c ds : string) (a : float) :
  wf t ->
  rows (delete_where_id (add_expense t d c ds a) (seq t + 1)) = rows t
  /\ seq (delete_where_id (add_expense t d c ds a) (seq t + 1)) = seq t + 1
  /\ (fits_int64 (seq t + 1) = true ->
      exists t',
        delete_expense (add_expense t d c ds a) (seq t + 1) = Done t'
        /\ rows t' = rows t /\ seq t' = seq t + 1).
Proof.
  intro Ht. split; [now apply add_then_delete_rows|]. split; [reflexivity|].
  intro Hi. exists (delete_where_id (add_expense t d c ds a) (seq t + 1)).
  split; [now apply delete_expense_fits|].
  split; [now apply add_then_delete_rows | reflexivity].
Qed.

Lemma update_where_id_twice (t : table) (i : Z)
  (d c ds d' c' ds' : string) (a a' : float) :
  update_where_id (update_where_id t d c ds a i) d' c' ds' a' i
  = update_where_id t d' c' ds' a' i.
Proof.
  unfold update_where_id. cbn [rows seq]. f_equal.
  rewrite map_map. apply map_ext. intro r.
  destruct (Z.eqb_spec (id r) i) as [E|N]; cbn [id].
  - subst i. now rewrite Z.eqb_refl.
  - destruct (Z.eqb_spec (id r) i); [contradiction | reflexivity].
Qed.

(** X9. Of two updates of the same id the later one decides: the table
    is as if only it had been made. *)
Theorem update_update (t : table) (i : Z)
  (d c ds d' c' ds' : string) (a a' : float) :
  table_after
    (update_expense (table_after (update_expense t i d c ds a)) i d' c' ds' a')
  = table_after (update_expense t i d' c' ds' a').
Proof.
  unfold update_expense, execute_update.
  destruct (fits_int64 i); cbn [table_after]; [|reflexivity].
  apply update_where_id_twice.
Qed.

(** X10. Updating an id that has been deleted changes nothing. *)
Theorem update_after_delete (t : table) (i : Z) (d c ds : string)
  (a : float) :
  table_after (update_expense (table_after (delete_expense t i)) i d c ds a)
  = table_after (delete_expense t i).
Proof.
  unfold update_expense, execute_update, delete_expense, execute_delete.
  destruct (fits_int64 i); cbn [table_after]; [|reflexivity].
  apply update_absent, delete_removes_id.
Qed.

Lemma delete_update_where_id (t : table) (i j : Z)
  (d c ds : string) (a : float) :
  i <> j ->
  delete_where_id (update_where_id t d c ds a i) j
  = update_where_id (delete_where_id t j) d c ds a i.
Proof.
  intro Hij. unfold delete_where_id, update_where_id. cbn [rows seq]. f_equal.
  induction (rows t) as [|r l IH]; cbn [map filter]; [reflexivity|].
  destruct (Z.eqb_spec (id r) i) as [E|N]; cbn [id].
  - destruct (Z.eqb_spec i j); [contradiction|].
    destruct (Z.eqb_spec (id r) j); [lia|]. cbn [negb map].
    rewrite IH. destruct (Z.eqb_spec (id r) i); [reflexivity | contradiction].
  - destruct (Z.eqb_spec (id r) j); cbn [negb map]; [exact IH|].
    rewrite IH. destruct (Z.eqb_spec (id r) i); [contradiction | reflexivity].
Qed.

(** X11. A delete and an update of different ids can be made in either
    order. *)
Theorem delete_update_commute (t : table) (i j : Z)
  (d c ds : string) (a : float) :
  i <> j ->
  table_after (delete_expense (table_after (update_expense t i d c ds a)) j)
  = table_after (update_expense (table_after (delete_expense t j)) i d c ds a).
Proof.
  intro Hij.
  unfold update_expense, execute_update, delete_expense, execute_delete.
  destruct (fits_int64 i), (fits_int64 j); cbn [table_after];
    try reflexivity.
  now apply delete_update_where_id.
Qed.

End Identifiers.

(* ------------------------------------------------------------------ *)
(** ** The prompt for a date *)

Section Prompt.

Local Open Scope list_scope.

Lemma verdict_any_platform (zp : bool) (raw : string) :
  match check_date zp raw, check_date true raw with
  | Accepted _, Accepted _ => True
  | InvalidFormat, InvalidFormat => True
  | InvalidDate, InvalidDate => True
  | _, _ => False
  end.
Proof.
  unfold check_date.
  destruct (negb (Nat.eqb (String.length raw) 10)
            || differs_at raw 4 "-" || differs_at raw 7 "-"); [exact I|].
  destruct (strptime_ymd raw); exact I.
Qed.

Lemma loop_rejects (zp : bool) (line : string) (rest : list string)
  (out : list message) :
  accepts (strip line) = false ->
  get_valid_date_loop zp (line :: rest) out
  = get_valid_date_loop zp rest (out ++ [rejection_msg line]).
Proof.
  intro H. cbn [get_valid_date_loop]. unfold rejection_msg.
  pose proof (verdict_any_platform zp (strip line)) as V.
  unfold accepts in H.
  destruct (check_date zp (strip line)), (check_date true (strip line));
    try contradiction; try discriminate; reflexivity.
Qed.

(** X12. [get_valid_date] returns what the first accepted line gives: the
    lines before it are read and answered with one message each, the
    lines after it are left unread. *)
Theorem get_valid_date_first_accepted (zp : bool)
  (rejected : list string) (good d : string) (rest : list string)
  (out : list message) :
  Forall (fun l => accepts (strip l) = false) rejected ->
  check_date zp (strip good) = Accepted d ->
  get_valid_date zp (mkWorld (rejected ++ good :: rest) out)
  = Returns d (mkWorld rest (out ++ map rejection_msg rejected)).
Proof.
  intros Hr Hg. unfold get_valid_date. cbn [stdin stdout].
  revert out. induction Hr as [|l ls Hl Hls IH]; intro out.
  - cbn [app map get_valid_date_loop]. rewrite Hg. now rewrite app_nil_r.
  - cbn [app map]. rewrite (loop_rejects zp l _ out Hl), IH.
    now rewrite <- app_assoc.
Qed.

(** X13. When no line of the input is accepted, [get_valid_date] reads all
    of it, answers each line with a message and ends in [EOFError]. *)
Theorem get_valid_date_exhausts (zp : bool) (lines : list string)
  (out : list message) :
  Forall (fun l => accepts (strip l) = false) lines ->
  get_valid_date zp (mkWorld lines out)
  = Raises EOFError (mkWorld [] (out ++ map rejection_msg lines)).
Proof.
  intro Hr. unfold get_valid_date. cbn [stdin stdout].
  revert out. induction Hr as [|l ls Hl Hls IH]; intro out.
  - cbn [map get_valid_date_loop]. now rewrite app_nil_r.
  - cbn [map]. rewrite (loop_rejects zp l _ out Hl), IH.
    now rewrite <- app_assoc.
Qed.

Lemma accepted_is_strict (zp : bool) (raw s : string) :
  check_date zp raw = Accepted s ->
  zp = true \/ String.get 0 raw <> Some "0"%char ->
  strict_ymd s = true.
Proof.
  intros H Hz. rewrite (check_date_returns _ _ _ H Hz).
  rewrite <- accepts_strict. apply (accepts_any_platform zp). now exists s.
Qed.

(** X14. What the validator returns is a date written YYYY-MM-DD, where
    [strftime] pads the year or the year does not begin with 0. *)
Theorem check_date_returns_strict (zp : bool) (raw s : string) :
  check_date zp raw = Accepted s ->
  zp = true \/ String.get 0 raw <> Some "0"%char ->
  strict_ymd s = true.
Proof. apply accepted_is_strict. Qed.

(** X15. The validator accepts what it returns and returns it unchanged:
    a date that has passed once passes again as it is. *)
Theorem check_date_fixed_point (zp : bool) (raw s : string) :
  check_date zp raw = Accepted s ->
  zp = true \/ String.get 0 raw <> Some "0"%char ->
  check_date zp s = Accepted s.
Proof.
  intros H Hz.
  pose proof (accepted_is_strict _ _ _ H Hz) as S.
  pose proof (check_date_returns _ _ _ H Hz) as E.
  assert (A : accepts s = true)
    by (rewrite accepts_strict, strict_ymd_no_blank; assumption).
  apply (accepts_any_platform zp) in A. destruct A as [s' Hs'].
  rewrite Hs'. f_equal.
  rewrite (check_date_returns _ _ _ Hs'), strict_ymd_no_blank; auto.
  destruct Hz as [Hz|Hz]; [now left | right].
  now rewrite E, get_zero_pad_day_0.
Qed.

Local Open Scope Z_scope.

(** X16. The 29th of February is accepted exactly in leap years: years
    divisible by 4 and not by 100, or divisible by 400. *)
Theorem leap_day_accepted (y1 y2 y3 y4 : ascii) :
  is_digit y1 && is_digit y2 && is_digit y3 && is_digit y4 = true ->
  accepts (ten y1 y2 y3 y4 "-" "0" "2" "-" "2" "9")
  = (1 <=? num4 y1 y2 y3 y4) && is_leap (num4 y1 y2 y3 y4).
Proof.
  intro H. rewrite accepts_ten, zero_pad_day_ten.
  change (Ascii.eqb "2" " ") with false. cbv iota.
  unfold ten, strict_ymd. rewrite H.
  change (num2 "0" "2") with 2. change (num2 "2" "9") with 29.
  cbn [andb Ascii.eqb Bool.eqb is_digit].
  change (is_digit "0") with true. change (is_digit "2") with true.
  change (is_digit "9") with true. cbn [andb].
  unfold valid_date, days_in_month. cbn [Z.eqb Z.leb Z.compare Pos.compare Pos.compare_cont Pos.eqb andb].
  assert (B : (num4 y1 y2 y3 y4 <=? 9999) = true).
  { apply andb_true_iff in H. destruct H as [H H4].
    apply andb_true_iff in H. destruct H as [H H3].
    apply andb_true_iff in H. destruct H as [H1 H2].
    pose proof (digit_val_range _ H1). pose proof (digit_val_range _ H2).
    pose proof (digit_val_range _ H3). pose proof (digit_val_range _ H4).
    apply Z.leb_le. unfold num4. lia. }
  rewrite B. rewrite !andb_true_r.
  destruct (is_leap (num4 y1 y2 y3 y4)); cbn; now rewrite ?andb_true_r, ?andb_false_r.
Qed.

End Prompt.

(* ------------------------------------------------------------------ *)
(** ** The menu *)

Lemma bind_returns (A B : Type) (m : io A) (k : A -> io B)
  (w w' : world) (b : B) :
  bind m k w = Returns b w' ->
  exists a w1, m w = Returns a w1 /\ k a w1 = Returns b w'.
Proof.
  unfold bind. destruct (m w) as [a w1|e w1]; [|discriminate].
  intro H. now exists a, w1.
Qed.

Section Menu.

Local Open Scope list_scope.

Variable fl : string -> option float.
Variable pyplot : chart -> option exn.

Lemma input_returns (w w1 : world) (l : string) :
  input w = Returns l w1 ->
  stdin w = l :: stdin w1 /\ stdout w1 = stdout w.
Proof.
  unfold input. destruct (stdin w) as [|x rest]; [discriminate|].
  intro H. injection H as <- <-. now split.
Qed.

Lemma print_returns (m : message) (w w1 : world) (u : unit) :
  print m w = Returns u w1 -> stdin w1 = stdin w.
Proof. unfold print. intro H. now injection H as _ <-. Qed.

Lemma convert_returns (A : Type) (o : option A) (w w1 : world) (a : A) :
  convert o w = Returns a w1 -> o = Some a /\ w1 = w.
Proof.
  destruct o; cbn; [|discriminate]. intro H. now injection H as <- <-.
Qed.

Lemma reraise_returns (o : option exn) (w w1 : world) (u : unit) :
  reraise o w = Returns u w1 -> o = None /\ w1 = w.
Proof.
  destruct o; cbn; [discriminate|]. intro H. now injection H as _ <-.
Qed.

Lemma written_returns (r : result) (w w1 : world) (t : table) :
  written r w = Returns t w1 -> r = Done t /\ w1 = w.
Proof.
  destruct r; cbn; [|discriminate]. intro H. now injection H as <- <-.
Qed.

Lemma ret_returns (A : Type) (x a : A) (w w1 : world) :
  ret x w = Returns a w1 -> a = x /\ w1 = w.
Proof. unfold ret. intro H. now injection H as <- <-. Qed.

Lemma loop_returns (zp : bool) (lines : list string) (out : list message)
  (d : string) (w1 : world) :
  get_valid_date_loop zp lines out = Returns d w1 ->
  (List.length (stdin w1) < List.length lines)%nat
  /\ exists raw, check_date zp raw = Accepted d.
Proof.
  revert out. induction lines as [|l lines IH]; intro out;
    cbn [get_valid_date_loop]; [discriminate|].
  destruct (check_date zp (strip l)) as [s| |] eqn:E; intro H.
  - injection H as <- <-. cbn [stdin List.length]. split; [lia|].
    now exists (strip l).
  - destruct (IH _ H) as [Hl Hr]. cbn [List.length]. split; [lia | exact Hr].
  - destruct (IH _ H) as [Hl Hr]. cbn [List.length]. split; [lia | exact Hr].
Qed.

Lemma get_valid_date_returns (zp : bool) (w w1 : world) (d : string) :
  get_valid_date zp w = Returns d w1 ->
  (List.length (stdin w1) < List.length (stdin w))%nat
  /\ exists raw, check_date zp raw = Accepted d.
Proof. apply loop_returns. Qed.

Lemma valid_dates_add (t : table) (d c ds : string) (a : float) :
  valid_dates t -> strict_ymd d = true ->
  valid_dates (add_expense t d c ds a).
Proof.
  intros Ht Hd. unfold valid_dates. cbn [add_expense insert rows].
  apply Forall_app. split; [exact Ht|]. now repeat constructor.
Qed.

Lemma valid_dates_delete (t t' : table) (i : Z) :
  delete_expense t i = Done t' -> valid_dates t -> valid_dates t'.
Proof.
  unfold delete_expense, execute_delete.
  destruct (fits_int64 i); [|discriminate]. intro H. injection H as <-.
  unfold valid_dates. cbn [delete_where_id rows].
  rewrite !Forall_forall. intros H r Hr. apply filter_In in Hr. now apply H.
Qed.

Lemma valid_dates_update (t t' : table) (i : Z) (d c ds : string)
  (a : float) :
  update_expense t i d c ds a = Done t' ->
  valid_dates t -> strict_ymd d = true -> valid_dates t'.
Proof.
  unfold update_expense, execute_update.
  destruct (fits_int64 i); [|discriminate]. intro H. injection H as <-.
  unfold valid_dates. cbn [update_where_id rows].
  rewrite !Forall_forall. intros H Hd r Hr.
  apply in_map_iff in Hr. destruct Hr as [x [<- Hx]].
  destruct (id x =? i)%Z; [exact Hd | now apply H].
Qed.

Lemma wf_delete_done (t t' : table) (i : Z) :
  delete_expense t i = Done t' -> wf t -> wf t'.
Proof.
  intros H Ht. pose proof (wf_delete_expense t i Ht) as W.
  now rewrite H in W.
Qed.

Lemma wf_update_done (t t' : table) (i : Z) (d c ds : string) (a : float) :
  update_expense t i d c ds a = Done t' -> wf t -> wf t'.
Proof.
  intros H Ht. pose proof (wf_update_expense t i d c ds a Ht) as W.
  now rewrite H in W.
Qed.

Lemma accepted_strict (raw d : string) :
  check_date true raw = Accepted d -> strict_ymd d = true.
Proof. intro H. apply (accepted_is_strict true raw d H). now left. Qed.

Lemma menu_choice_invariant (t t' : table) (choice : string) (b : bool)
  (w w' : world) :
  menu_choice true fl pyplot t choice w = Returns (t', b) w' ->
  wf t /\ valid_dates t -> wf t' /\ valid_dates t'.
Proof.
  intros H [Hw Hv]. unfold menu_choice in H.
  repeat match type of H with
  | (if ?c then _ else _) _ = _ => destruct c
  | (match ?p with NoExpensesToDisplay => _ | _ => _ end) _ = _ =>
      destruct p as [| |? ?]; [| |discriminate]
  end; inv_bind_with bind_returns H; apply ret_returns in H; destruct H as [H _];
    injection H as -> _;
    repeat match goal with
    | G : get_valid_date _ _ = Returns _ _ |- _ =>
        apply get_valid_date_returns in G; destruct G as [_ [? G]];
        apply accepted_strict in G
    | G : written _ _ = Returns _ _ |- _ =>
        apply written_returns in G; destruct G as [G _]
    end;
    eauto using wf_add_expense, wf_delete_done, wf_update_done,
      valid_dates_add, valid_dates_delete, valid_dates_update.
Qed.

(** X17. The menu keeps the table in order: started on a table whose ids
    strictly increase below the counter and whose dates are all written
    YYYY-MM-DD (the fresh table is one), a session that ends by choice 8
    leaves such a table, whatever was typed.  ([strftime] pads years.) *)
Theorem menu_keeps_invariants (fuel : nat) (db : option table)
  (t' : table) (w w' : world) :
  (forall t, db = Some t -> wf t /\ valid_dates t) ->
  menu true fl pyplot fuel db w = Returns (Some t') w' ->
  wf t' /\ valid_dates t'.
Proof.
  intros Hdb. unfold menu.
  assert (H0 : wf (create_table db) /\ valid_dates (create_table db)).
  { destruct db as [t|]; cbn [create_table]; [now apply Hdb|].
    split; [apply wf_empty | constructor]. }
  revert H0. generalize (create_table db) as t. revert w.
  induction fuel as [|fuel IH]; intros w t Ht H; cbn [menu_loop] in H.
  - apply ret_returns in H. destruct H as [H _]. discriminate H.
  - inv_bind_with bind_returns H. destruct a0 as [t1 b].
    pose proof (menu_choice_invariant _ _ _ _ _ _ Hm0 Ht) as Ht1.
    cbn [fst snd] in H. destruct b.
    + now apply (IH _ _ Ht1 H).
    + apply ret_returns in H. destruct H as [H _]. now injection H as <-.
Qed.

(** X18. Choices other than 1, 4 and 5 leave the table as it is, and only
    choice 8 ends the loop. *)
Theorem menu_choice_read_only (zp : bool) (t t' : table) (choice : string)
  (b : bool) (w w' : world) :
  writes choice = false ->
  menu_choice zp fl pyplot t choice w = Returns (t', b) w' ->
  t' = t /\ b = negb (String.eqb choice "8").
Proof.
  unfold writes. intros Hc H.
  apply orb_false_iff in Hc. destruct Hc as [Hc H5].
  apply orb_false_iff in Hc. destruct Hc as [H1 H4].
  unfold menu_choice in H. rewrite H1, H4, H5 in H.
  repeat match type of H with
  | (if ?c then _ else _) _ = _ => destruct c eqn:?
  | (match ?p with NoExpensesToDisplay => _ | _ => _ end) _ = _ =>
      destruct p as [| |? ?]; [| |discriminate]
  end; try discriminate; inv_bind_with bind_returns H; apply ret_returns in H;
    destruct H as [H _]; injection H as -> ->;
    (split; [reflexivity|]);
    try match goal with
    | E : String.eqb choice _ = true |- _ =>
        apply String.eqb_eq in E; subst choice
    end;
    first [ reflexivity
          | match goal with
            | E : String.eqb _ "8" = _ |- _ => now rewrite E
            end ].
Qed.

Lemma menu_choice_stdin (zp : bool) (t t' : table) (choice : string)
  (b : bool) (w w' : world) :
  menu_choice zp fl pyplot t choice w = Returns (t', b) w' ->
  (List.length (stdin w') <= List.length (stdin w))%nat.
Proof.
  intro H. unfold menu_choice, monthly_expense in H.
  repeat match type of H with
  | (if ?c then _ else _) _ = _ => destruct c
  | (match ?p with NoExpensesToDisplay => _ | _ => _ end) _ = _ =>
      destruct p as [| |? ?]; [| |discriminate]
  end; inv_bind_with bind_returns H; apply ret_returns in H; destruct H as [_ ->];
    repeat match goal with
    | G : get_valid_date _ _ = Returns _ _ |- _ =>
        apply get_valid_date_returns in G; destruct G as [G _]
    | G : input _ = Returns _ _ |- _ =>
        apply input_returns in G; destruct G as [G _];
        apply (f_equal (@List.length string)) in G; cbn [List.length] in G
    | G : print _ _ = Returns _ _ |- _ =>
        apply print_returns in G;
        apply (f_equal (@List.length string)) in G
    | G : convert _ _ = Returns _ _ |- _ =>
        apply convert_returns in G; destruct G as [_ G]; subst
    | G : reraise _ _ = Returns _ _ |- _ =>
        apply reraise_returns in G; destruct G as [_ G]; subst
    | G : written _ _ = Returns _ _ |- _ =>
        apply written_returns in G; destruct G as [_ G]; subst
    | G : bind _ _ _ = Returns _ _ |- _ => inv_bind_with bind_returns G
    end; try lia.
Qed.

(** X19. The loop of the menu ends: every pass reads a line, so a session
    over a finite input ends by choice 8 or by an exception (the end of
    the input among them) within as many passes as there are lines. *)
Theorem menu_loop_ends (zp : bool) (fuel : nat) (t : table) (w w' : world) :
  (List.length (stdin w) < fuel)%nat ->
  menu_loop zp fl pyplot fuel t w <> Returns None w'.
Proof.
  revert t w. induction fuel as [|fuel IH]; intros t w Hl H; [lia|].
  cbn [menu_loop] in H. inv_bind_with bind_returns H. destruct a0 as [t1 b].
  apply input_returns in Hm. destruct Hm as [Hm _].
  apply (f_equal (@List.length string)) in Hm. cbn [List.length] in Hm.
  apply menu_choice_stdin in Hm0. cbn [fst snd] in H. destruct b.
  - apply (IH t1 w1); [lia | exact H].
  - apply ret_returns in H. destruct H as [H _]. discriminate H.
Qed.

(** X20. Text that is no number, typed where an id or an amount is asked
    for, ends the menu with [ValueError]: nothing is deleted, updated or
    added, and no success message is printed. *)
Theorem menu_number_errors (zp : bool) (fuel : nat) (t : table)
  (rest : list string) (out : list message) :
  (forall i, py_int i = None ->
     menu_loop zp fl pyplot (S fuel) t (mkWorld ("4" :: i :: rest) out)
     = Raises ValueError (mkWorld rest out))
  /\ (forall i, py_int i = None ->
        menu_loop zp fl pyplot (S fuel) t (mkWorld ("5" :: i :: rest) out)
        = Raises ValueError (mkWorld rest out))
  /\ (forall line d c ds a,
        check_date zp (strip line) = Accepted d -> fl a = None ->
        menu_loop zp fl pyplot (S fuel) t
          (mkWorld ("1" :: line :: c :: ds :: a :: rest) out)
        = Raises ValueError (mkWorld rest out)).
Proof.
  split; [|split].
  - intros i Hi. cbn [menu_loop]. unfold bind at 1. cbn [input stdin stdout].
    unfold bind at 1, menu_choice. cbn [String.eqb Ascii.eqb Bool.eqb].
    unfold bind at 1. cbn [input stdin stdout]. unfold bind at 1.
    now rewrite Hi.
  - intros i Hi. cbn [menu_loop]. unfold bind at 1. cbn [input stdin stdout].
    unfold bind at 1, menu_choice. cbn [String.eqb Ascii.eqb Bool.eqb].
    unfold bind at 1. cbn [input stdin stdout]. unfold bind at 1.
    now rewrite Hi.
  - intros line d c ds a Hd Ha. cbn [menu_loop].
    unfold bind at 1. cbn [input stdin stdout].
    unfold bind at 1, menu_choice. cbn [String.eqb Ascii.eqb Bool.eqb].
    unfold bind at 1, get_valid_date.
    cbn [stdin stdout get_valid_date_loop]. rewrite Hd.
    unfold bind, input, convert, raise. cbn [stdin stdout].
    now rewrite Ha.
Qed.


End Menu.

(* ------------------------------------------------------------------ *)
(** ** What is displayed *)

Section Display.

Local Open Scope list_scope.

Lemma group_add_not_nil (c : string) (v : real)
  (g : list (string * sum_ctx)) :
  group_add c v g <> [].
Proof.
  destruct g as [|[c' s] g]; cbn [group_add]; [discriminate|].
  destruct (String.compare c c'); discriminate.
Qed.

Lemma fold_group_add_not_nil (rs : list expense)
  (g : list (string * sum_ctx)) :
  g <> [] ->
  fold_left (fun g r => group_add (category r) (amount r) g) rs g <> [].
Proof.
  revert g. induction rs as [|r rs IH]; intros g Hg; cbn [fold_left].
  - exact Hg.
  - apply IH, group_add_not_nil.
Qed.

Lemma select_sum_by_category_nil (t : table) :
  select_sum_by_category t = [] <-> rows t = [].
Proof.
  unfold select_sum_by_category, group_rows.
  destruct (rows t) as [|r rs] eqn:E.
  - cbn. tauto.
  - cbn [fold_left].
    pose proof (fold_group_add_not_nil rs _
                  (group_add_not_nil (category r) (amount r) [])) as N.
    destruct (fold_left _ rs _); [contradiction|].
    split; discriminate.
Qed.

Lemma length_colors_of (l : list real) (cs : list color) :
  colors_of l = Some cs -> List.length cs = List.length l.
Proof.
  revert cs. induction l as [|[x|] l IH]; intros cs H; cbn [colors_of] in H.
  - now injection H as <-.
  - destruct (colors_of l) as [cs'|]; [|discriminate].
    injection H as <-. cbn [List.length]. now rewrite (IH cs').
  - discriminate.
Qed.

(** X21. Whatever the plotting library does, [plot_category_expenses]
    prints its message exactly when the table has no row, and a chart it
    hands over has one height and one colour per category; the listing
    prints its message exactly when the table has no row, and then ends
    without an exception. *)
Theorem display_empty_iff (pyplot : chart -> option exn) (t : table) :
  (plot_category_expenses pyplot t = NoExpensesToDisplay <-> rows t = [])
  /\ (fst (view_expenses t) = NoExpensesRecorded <-> rows t = [])
  /\ (rows t = [] -> view_expenses t = (NoExpensesRecorded, None))
  /\ (forall ch,
        plot_category_expenses pyplot t = Shown ch
        \/ (exists e, plot_category_expenses pyplot t = Crashed e (Some ch)) ->
        List.length (amounts ch) = List.length (categories ch)
        /\ List.length (colors ch) = List.length (categories ch)).
Proof.
  split; [|split; [|split]].
  - rewrite <- select_sum_by_category_nil. unfold plot_category_expenses.
    destruct (select_sum_by_category t) as [|k g]; [tauto|].
    destruct (colors_of _); [destruct (pyplot _)|]; split; discriminate.
  - unfold view_expenses, select_all. destruct (rows t) as [|r rs]; cbn.
    + tauto.
    + destruct (amount r); [destruct (print_rows rs)|]; split; discriminate.
  - unfold view_expenses, select_all. now intros ->.
  - intros ch H. unfold plot_category_expenses in H.
    destruct (select_sum_by_category t) as [|k g];
      [destruct H as [H|[e H]]; discriminate|].
    destruct (colors_of (map snd (k :: g))) as [cs|] eqn:C;
      [|destruct H as [H|[e H]]; discriminate].
    apply length_colors_of in C.
    assert (E : ch = mkChart (map fst (k :: g)) (map snd (k :: g)) cs
                       (float_of_Z 1000, float_of_Z 90000) limit).
    { destruct (pyplot _); destruct H as [H|[e' H]];
        try discriminate; now injection H. }
    subst ch. cbn [amounts categories colors].
    rewrite C, !length_map. now split.
Qed.

End Display.

(* ------------------------------------------------------------------ *)
(** ** Further instances *)

Lemma deleted_id_not_reused_witness :
  In 2%Z (ids three_rows)
  /\ ~ In 2%Z (ids (add_all (delete_where_id three_rows 2)
                      [("2025-09-01", "Rent", "flat", float_of_Z 900)])).
Proof.
  assert (H : In 2%Z (ids three_rows)) by (right; left; reflexivity).
  split; [exact H|].
  exact (proj1 (deleted_id_not_reused three_rows 2
                  [("2025-09-01", "Rent", "flat", float_of_Z 900)]
                  wf_three_rows H)).
Defined.

Lemma add_then_delete_witness :
  wf three_rows
  /\ rows (delete_where_id
             (add_expense three_rows "2025-09-01" "Rent" "flat"
                (float_of_Z 900))
             (seq three_rows + 1))
     = rows three_rows.
Proof.
  split; [exact wf_three_rows|].
  exact (proj1 (add_then_delete three_rows "2025-09-01" "Rent" "flat"
                  (float_of_Z 900) wf_three_rows)).
Defined.

Lemma delete_update_commute_witness :
  1%Z <> 2%Z
  /\ table_after
       (delete_expense
          (table_after
             (update_expense three_rows 1 "2025-09-01" "Rent" "flat"
                (float_of_Z 900))) 2)
     = table_after
         (update_expense (table_after (delete_expense three_rows 2)) 1
            "2025-09-01" "Rent" "flat" (float_of_Z 900)).
Proof.
  assert (H : 1%Z <> 2%Z) by discriminate.
  split; [exact H|].
  exact (delete_update_commute three_rows 1 2 "2025-09-01" "Rent" "flat"
           (float_of_Z 900) H).
Defined.

Lemma get_valid_date_first_accepted_witness :
  get_valid_date true
    (mkWorld ["2025/08/03"; "2025-13-01"; " 2025-08- 3 "; "Food"] [])
  = Returns "2025-08-03"
      (mkWorld ["Food"] [InvalidFormatMsg; InvalidDateMsg]).
Proof.
  apply (get_valid_date_first_accepted true ["2025/08/03"; "2025-13-01"]
           " 2025-08- 3 " "2025-08-03" ["Food"] []).
  - repeat constructor.
  - reflexivity.
Defined.

Lemma get_valid_date_exhausts_witness :
  get_valid_date true (mkWorld ["tomorrow"; "2025-02-30"] [])
  = Raises EOFError (mkWorld [] [InvalidFormatMsg; InvalidDateMsg]).
Proof.
  apply (get_valid_date_exhausts true ["tomorrow"; "2025-02-30"] []).
  repeat constructor.
Defined.

Lemma check_date_returns_strict_witness :
  check_date false "2025-08- 3" = Accepted "2025-08-03"
  /\ strict_ymd "2025-08-03" = true.
Proof.
  split; [reflexivity|].
  apply (check_date_returns_strict false "2025-08- 3" "2025-08-03").
  - reflexivity.
  - right; discriminate.
Defined.

Lemma check_date_fixed_point_witness :
  check_date false "2025-08- 3" = Accepted "2025-08-03"
  /\ check_date false "2025-08-03" = Accepted "2025-08-03".
Proof.
  split; [reflexivity|].
  apply (check_date_fixed_point false "2025-08- 3" "2025-08-03").
  - reflexivity.
  - right; discriminate.
Defined.

Lemma leap_day_accepted_witness :
  accepts "1900-02-29"
  = ((1 <=? num4 "1" "9" "0" "0")%Z && is_leap (num4 "1" "9" "0" "0")).
Proof.
  apply (leap_day_accepted "1" "9" "0" "0"). reflexivity.
Defined.

Lemma menu_keeps_invariants_witness :
  wf (add_expense empty_table "2025-08-03" "Food" "lunch" (float_of_Z 20))
  /\ valid_dates
       (add_expense empty_table "2025-08-03" "Food" "lunch" (float_of_Z 20)).
Proof.
  apply (menu_keeps_invariants whole_number draws 10 None
           (add_expense empty_table "2025-08-03" "Food" "lunch"
              (float_of_Z 20))
           (mkWorld short_session [])
           (mkWorld []
              [ExpenseAdded; TotalExpense (Float (float_of_Z 20)); Exiting])).
  - discriminate.
  - vm_compute. reflexivity.
Defined.

Lemma menu_choice_read_only_witness :
  three_rows = three_rows /\ true = negb (String.eqb "3" "8").
Proof.
  apply (menu_choice_read_only whole_number draws true three_rows three_rows
           "3" true (mkWorld ["8"] [])
           (mkWorld ["8"] [TotalExpense (total_expense three_rows)])).
  - reflexivity.
  - reflexivity.
Defined.

Lemma menu_loop_ends_witness :
  menu_loop true whole_number draws 8 empty_table (mkWorld short_session [])
  <> Returns None (mkWorld [] []).
Proof.
  apply (menu_loop_ends whole_number draws true 8 empty_table
           (mkWorld short_session []) (mkWorld [] [])).
  cbn. lia.
Defined.

Lemma menu_number_errors_witness :
  py_int "two" = None
  /\ menu_loop true whole_number draws 1 three_rows
       (mkWorld ["4"; "two"; "8"] [])
     = Raises ValueError (mkWorld ["8"] []).
Proof.
  split; [reflexivity|].
  apply (proj1 (menu_number_errors whole_number draws true 0 three_rows
                  ["8"] [])).
  reflexivity.
Defined.

